(** * The F1 pit-stop pipeline (f1.py): extract, transform, load

    A shallow embedding of the three task bodies of [f1.py] and the
    properties of its specification.  Python objects live in a store, the
    task bodies are written in an exception monad over the state of the
    process and of its collaborators (environment, HTTP endpoint, database
    server), and the [for] loops iterate the live list by index. *)

From Stdlib Require Import Ascii Floats.SpecFloat.
From stdpp Require Import gmap strings list fin_maps pretty.

(** ** Python values and objects *)

(** Addresses of the mutable objects (lists and dicts) of the process. *)
Definition loc := positive.

(** What a variable, a list slot or a dict slot holds: a scalar, or a
    reference to a list or dict. *)
Inductive val :=
  | VNone
  | VBool (b : bool)
  | VInt (z : Z)
  | VFloat (f : spec_float)
  | VStr (s : string)
  | VRef (l : loc).

Inductive obj :=
  | OList (xs : list val)
  | ODict (d : gmap string val).

(** The exceptions of the program.  [LibraryError] stands for the classes
    that the HTTP client and the database driver raise. *)
Inductive exn :=
  | Exception (msg : string)
  | RuntimeError (msg : string)
  | TypeError (msg : string)
  | AttributeError (msg : string)
  | LibraryError (cls msg : string).

(** [str(e)] *)
Definition str_exn (e : exn) : string :=
  match e with
  | Exception m | RuntimeError m | TypeError m | AttributeError m => m
  | LibraryError _ m => m
  end.

(** ** The collaborators *)

(** The object [requests.get] returns: its status, and what [.json()]
    gives, the decoded body (already in the store) or the decoder's
    exception. *)
Record response := Response {
  status_code : Z;
  json : exn + val;
}.

(** The statements the loader sends; both texts are constants of the
    source, the insert carries its parameter dict. *)
Inductive stmt :=
  | CREATE_TABLE_IF_NOT_EXISTS_f1_data
  | INSERT_INTO_f1_data (params : gmap string val).

(** The calls that leave the process. *)
Inductive call :=
  | HttpGet (url : string)
  | Connect (url : string)
  | Execute (s : stmt)
  | Commit
  | Close
  | Dispose.

(** The table on the server: whether it exists, and its committed rows
    (the six columns the program writes). *)
Record database := Database {
  table_exists : bool;
  rows : list (gmap string val);
}.

(** An open connection with its transaction: the DDL and the inserts
    executed since the last commit. *)
Record connection := Connection {
  pending_ddl : bool;
  pending_rows : list (gmap string val);
}.

(** The engine [create_engine] returns; it opens nothing by itself. *)
Record engine := Engine {
  engine_url : string;
  poolclass : string;
  connect_args : list (string * val);
}.

Record world := World {
  environ : gmap string string;         (* os.environ *)
  network : string → exn + response;    (* what a GET of a URL gives *)
  heap : gmap loc obj;                  (* the objects of the process *)
  stdout : list string;                 (* the printed lines *)
  faults : nat → option exn;            (* the exception, if any, that the
                                           j-th round trip to the server raises *)
  round_trips : nat;                    (* the round trips made so far *)
  conn : option connection;             (* the connection held, if any *)
  db : database;                        (* the committed state of the server *)
  trace : list call;                    (* the calls made so far *)
}.

Definition set_heap (h : gmap loc obj) (w : world) : world :=
  World (environ w) (network w) h (stdout w) (faults w) (round_trips w)
        (conn w) (db w) (trace w).
Definition set_stdout (o : list string) (w : world) : world :=
  World (environ w) (network w) (heap w) o (faults w) (round_trips w)
        (conn w) (db w) (trace w).
Definition count_trip (w : world) : world :=
  World (environ w) (network w) (heap w) (stdout w) (faults w) (S (round_trips w))
        (conn w) (db w) (trace w).
Definition set_conn (c : option connection) (w : world) : world :=
  World (environ w) (network w) (heap w) (stdout w) (faults w) (round_trips w)
        c (db w) (trace w).
Definition set_db (d : database) (w : world) : world :=
  World (environ w) (network w) (heap w) (stdout w) (faults w) (round_trips w)
        (conn w) d (trace w).
Definition log_call (c : call) (w : world) : world :=
  World (environ w) (network w) (heap w) (stdout w) (faults w) (round_trips w)
        (conn w) (db w) (trace w ++ [c]).

(** ** The monad of task bodies *)

(** A body returns, raises, or exhausts the loop budget it was given. *)
Inductive outcome (A : Type) :=
  | Ret (a : A)
  | Raise (e : exn)
  | OutOfFuel.
Arguments Ret {A} a.
Arguments Raise {A} e.
Arguments OutOfFuel {A}.

Definition M (A : Type) : Type := world → outcome A * world.

Definition ret {A} (a : A) : M A := λ w, (Ret a, w).
Definition raise {A} (e : exn) : M A := λ w, (Raise e, w).
Definition bind {A B} (m : M A) (k : A → M B) : M B := λ w,
  match m w with
  | (Ret a, w') => k a w'
  | (Raise e, w') => (Raise e, w')
  | (OutOfFuel, w') => (OutOfFuel, w')
  end.

Declare Scope py_scope.
Delimit Scope py_scope with py.
Notation "x <- m ;; k" := (bind m (λ x, k))
  (at level 100, m at next level, right associativity, only parsing) : py_scope.
Notation "m ;; k" := (bind m (λ _, k))
  (at level 100, k at level 200, right associativity, only parsing) : py_scope.
Open Scope py_scope.

(** [try: body except Exception as e: handler e] *)
Definition try_except {A} (body : M A) (handler : exn → M A) : M A := λ w,
  match body w with
  | (Raise e, w') => handler e w'
  | r => r
  end.

(** [try: body finally: fin]; the outcome of [body] stands unless [fin]
    itself raises. *)
Definition try_finally {A} (body : M A) (fin : M unit) : M A := λ w,
  match body w with
  | (OutOfFuel, w') => (OutOfFuel, w')
  | (r, w') =>
      match fin w' with
      | (Ret _, w'') => (r, w'')
      | (Raise e, w'') => (Raise e, w'')
      | (OutOfFuel, w'') => (OutOfFuel, w'')
      end
  end.

(** [with enter as x: body x]: [exit_] runs on every way out of the body,
    and not at all when [enter] raises. *)
Definition with_as {R A} (enter : M R) (exit_ : R → M unit) (body : R → M A) : M A :=
  x <- enter ;; try_finally (body x) (exit_ x).

(** ** Builtins *)

Definition print (line : string) : M unit := λ w,
  (Ret tt, set_stdout (stdout w ++ [line]) w).

(** [type(v).__name__].  A reference is to a list or to a dict; an
    address that the store does not hold never arises in a run, and
    reads as an empty list. *)
Definition type_name (v : val) : M string := λ w,
  (Ret match v with
       | VNone => "NoneType"
       | VBool _ => "bool"
       | VInt _ => "int"
       | VFloat _ => "float"
       | VStr _ => "str"
       | VRef l => match heap w !! l with
                   | Some (ODict _) => "dict"
                   | _ => "list"
                   end
       end, w).

(** A new object, at an address the store does not use. *)
Definition alloc (o : obj) : M val := λ w,
  let l := fresh (dom (heap w)) in
  (Ret (VRef l), set_heap (<[l := o]> (heap w)) w).

(** A dict display [{k1: v1, ..., kn: vn}]: the items are stored from left
    to right, a later one replacing an earlier one of the same key. *)
Definition dict_display (items : list (string * val)) : gmap string val :=
  foldl (λ d kv, <[kv.1 := kv.2]> d) ∅ items.

(** The failure of [v.name] when the type of [v] has no such method. *)
Definition no_attribute {A} (v : val) (name : string) : M A :=
  t <- type_name v ;;
  raise (AttributeError ("'" +:+ t +:+ "' object has no attribute '" +:+ name +:+ "'")).

(** [lst.append(x)]: only a list has the method. *)
Definition list_append (lst x : val) : M unit := λ w,
  match lst with
  | VRef l =>
      match heap w !! l with
      | Some (OList xs) => (Ret tt, set_heap (<[l := OList (xs ++ [x])]> (heap w)) w)
      | _ => no_attribute lst "append" w
      end
  | _ => no_attribute lst "append" w
  end.

(** [d.get(key)]: the value under [key], [None] when the dict has no such
    key; only a dict has the method. *)
Definition dict_get (d : val) (key : string) : M val := λ w,
  match d with
  | VRef l =>
      match heap w !! l with
      | Some (ODict m) => (Ret (default VNone (m !! key)), w)
      | _ => no_attribute d "get" w
      end
  | _ => no_attribute d "get" w
  end.

(** A byte [10xxxxxx] continues the UTF-8 encoding of a character. *)
Definition continuation (c : ascii) : bool :=
  match c with Ascii _ _ _ _ _ _ b6 b7 => b7 && negb b6 end.

(** The characters of a string, as the one-character strings that
    iterating it yields; the strings of the model are UTF-8 bytes, a
    character is a byte with the continuation bytes that follow it. *)
Fixpoint chars_from (s : string) : string * list val :=
  match s with
  | EmptyString => (EmptyString, [])
  | String c s' =>
      let '(cont, cs) := chars_from s' in
      if continuation c then (String c cont, cs)
      else (EmptyString, VStr (String c cont) :: cs)
  end.

Definition chars (s : string) : list val :=
  match chars_from s with
  | (EmptyString, cs) => cs
  | (cont, cs) => VStr cont :: cs
  end.

(** What iterating [v] runs over, read from the store: the slots of a
    list, the keys of a dict, the characters of a string; nothing else is
    iterable. *)
Definition items (h : gmap loc obj) (v : val) : option (list val) :=
  match v with
  | VRef l =>
      match h !! l with
      | Some (ODict m) => Some (VStr <$> (map_to_list m).*1)
      | Some (OList xs) => Some xs
      | None => Some []
      end
  | VStr s => Some (chars s)
  | _ => None
  end.

Definition iterable (v : val) : M (list val) := λ w,
  match items (heap w) v with
  | Some xs => (Ret xs, w)
  | None => bind (type_name v) (λ t,
              raise (TypeError ("'" +:+ t +:+ "' object is not iterable"))) w
  end.

(** [len(v)] *)
Definition len (v : val) : M nat := λ w,
  match items (heap w) v with
  | Some xs => (Ret (length xs), w)
  | None => bind (type_name v) (λ t,
              raise (TypeError ("object of type '" +:+ t +:+ "' has no len()"))) w
  end.

(** [for x in v: body x], from slot [i] on: each round reads slot [i] of
    the iterable as it is then, and stops when there is none.  [s] holds
    the local variables that the body assigns. *)
Fixpoint for_from {St : Type} (fuel : nat) (v : val) (i : nat)
    (body : val → St → M St) (s : St) : M St :=
  xs <- iterable v ;;
  match xs !! i with
  | None => ret s
  | Some x =>
      match fuel with
      | O => λ w, (OutOfFuel, w)
      | S fuel' => s' <- body x s ;; for_from fuel' v (S i) body s'
      end
  end.

Definition for_in {St : Type} (fuel : nat) (v : val) (body : val → St → M St) (s : St) : M St :=
  for_from fuel v 0 body s.

(** ** transform_data *)

Definition transform_data (fuel : nat) (f1_data_list : val) : M val :=
  transformed_data <- alloc (OList []) ;;
  for_in fuel f1_data_list (λ f1_data _,
    date <- dict_get f1_data "date" ;;
    session_key <- dict_get f1_data "session_key" ;;
    meeting_key <- dict_get f1_data "meeting_key" ;;
    driver_number <- dict_get f1_data "driver_number" ;;
    pit_duration <- dict_get f1_data "pit_duration" ;;
    lap_number <- dict_get f1_data "lap_number" ;;
    row <- alloc (ODict (dict_display
             [("date", date);
              ("session_key", session_key);
              ("meeting_key", meeting_key);
              ("driver_number", driver_number);
              ("pit_duration", pit_duration);
              ("lap_number", lap_number)])) ;;
    list_append transformed_data row) tt ;;
  n <- len transformed_data ;;
  print ("✅ Transformed " +:+ pretty n +:+ " records") ;;
  ret transformed_data.

(** ** extract_data *)

Definition session_key : string := "9158".

(** [requests.get(url)] *)
Definition requests_get (url : string) : M response := λ w,
  match network w url with
  | inl e => (Raise e, log_call (HttpGet url) w)
  | inr r => (Ret r, log_call (HttpGet url) w)
  end.

(** [response.json()] *)
Definition response_json (r : response) : M val :=
  match json r with
  | inl e => raise e
  | inr v => ret v
  end.

Definition extract_data : M val :=
  let endpoint := "https://api.openf1.org/v1/pit?session_key=" +:+ session_key in
  response <- requests_get endpoint ;;
  if bool_decide (status_code response = 200%Z) then
    data <- response_json response ;;
    n <- len data ;;
    print ("Extracted " +:+ pretty n +:+ " records from F1 API") ;;
    ret data
  else
    raise (Exception ("Failed to fetch F1 data: " +:+ pretty (status_code response))).

(** ** The database client

    The client is SQLAlchemy with its commit-as-you-go connections (the
    source calls [conn.commit()]): statements run in a transaction that
    only [commit] makes durable, and closing a connection discards what
    was not committed.  The pool is a [NullPool], so a closed connection
    is given back to the server, not kept.  Every round trip to the
    server (connecting, executing, committing) may raise; closing and
    disposing do not. *)

(** [os.environ.get(key)] *)
Definition os_environ_get (key : string) : M val := λ w,
  (Ret match environ w !! key with
       | Some s => VStr s
       | None => VNone
       end, w).

(** [not v]: [None], [False], zero, the empty string and the empty
    containers are false, everything else is true. *)
Definition py_not (v : val) : M bool := λ w,
  (Ret match v with
       | VNone => true
       | VBool b => negb b
       | VInt z => bool_decide (z = 0%Z)
       | VFloat (S754_zero _) => true
       | VFloat _ => false
       | VStr s => bool_decide (s = "")
       | VRef l => match heap w !! l with
                   | Some (OList []) => true
                   | Some (ODict m) => bool_decide (m = ∅)
                   | _ => false
                   end
       end, w).

(** One round trip to the server: it succeeds or raises, as [faults]
    says for its rank. *)
Definition round_trip : M unit := λ w,
  match faults w (round_trips w) with
  | Some e => (Raise e, count_trip w)
  | None => (Ret tt, count_trip w)
  end.

(** [create_engine(url, poolclass=..., connect_args=...)]: builds the
    engine, connects to nothing. *)
Definition create_engine (url : val) (pool : string) (args : list (string * val)) : M engine :=
  match url with
  | VStr u => ret (Engine u pool args)
  | _ => t <- type_name url ;;
         raise (LibraryError "ArgumentError" ("Expected string or URL object, got " +:+ t))
  end.

(** The handle of the one connection of the run. *)
Inductive handle := Conn.

(** [engine.connect()] *)
Definition engine_connect (e : engine) : M handle := λ w,
  match round_trip (log_call (Connect (engine_url e)) w) with
  | (Ret _, w') => (Ret Conn, set_conn (Some (Connection false [])) w')
  | (Raise ex, w') => (Raise ex, w')
  | (OutOfFuel, w') => (OutOfFuel, w')
  end.

Definition closed_error : exn :=
  LibraryError "ResourceClosedError" "This Connection is closed".

(** [conn.execute(statement)]: on success the statement joins the open
    transaction. *)
Definition conn_execute (_ : handle) (s : stmt) : M unit := λ w,
  match conn w with
  | None => (Raise closed_error, w)
  | Some c =>
      match round_trip (log_call (Execute s) w) with
      | (Ret _, w') =>
          (Ret tt,
           set_conn (Some match s with
                          | CREATE_TABLE_IF_NOT_EXISTS_f1_data =>
                              Connection true (pending_rows c)
                          | INSERT_INTO_f1_data params =>
                              Connection (pending_ddl c) (pending_rows c ++ [params])
                          end) w')
      | r => r
      end
  end.

(** [conn.commit()]: on success the open transaction becomes part of the
    committed state (the DDL creates the table only if it does not
    exist, and never touches its rows), and a new transaction starts. *)
Definition conn_commit (_ : handle) : M unit := λ w,
  match conn w with
  | None => (Raise closed_error, w)
  | Some c =>
      match round_trip (log_call Commit w) with
      | (Ret _, w') =>
          (Ret tt,
           set_conn (Some (Connection false []))
             (set_db (Database (table_exists (db w') || pending_ddl c)
                               (rows (db w') ++ pending_rows c)) w'))
      | r => r
      end
  end.

(** Leaving the [with] block closes the connection; what was not
    committed is rolled back. *)
Definition conn_close (_ : handle) : M unit := λ w,
  (Ret tt, set_conn None (log_call Close w)).

(** [engine.dispose()] *)
Definition engine_dispose (_ : engine) : M unit := λ w,
  (Ret tt, log_call Dispose w).

(** ** load_data_into_database *)

Definition load_data_into_database (fuel : nat) (transformed_data_list : val) : M unit :=
  DATABASE_URL <- os_environ_get "DATABASE_URL" ;;
  unset <- py_not DATABASE_URL ;;
  if unset : bool then
    raise (RuntimeError
      "DATABASE_URL not set in environment. Add it to a .env file or export it.")
  else
    engine <- create_engine DATABASE_URL "NullPool"
                [("connect_timeout", VInt 30);
                 ("keepalives", VInt 1);
                 ("keepalives_idle", VInt 30);
                 ("keepalives_interval", VInt 10);
                 ("keepalives_count", VInt 5);
                 ("options", VStr "-c client_encoding=utf8")] ;;
    try_finally
      (try_except
         (with_as (engine_connect engine) conn_close (λ conn,
            conn_execute conn CREATE_TABLE_IF_NOT_EXISTS_f1_data ;;
            conn_commit conn ;;
            print "✅ Table created/verified" ;;
            insert_count <- for_in fuel transformed_data_list (λ data insert_count,
              date <- dict_get data "date" ;;
              session_key <- dict_get data "session_key" ;;
              meeting_key <- dict_get data "meeting_key" ;;
              driver_number <- dict_get data "driver_number" ;;
              pit_duration <- dict_get data "pit_duration" ;;
              lap_number <- dict_get data "lap_number" ;;
              conn_execute conn (INSERT_INTO_f1_data (dict_display
                [("date", date);
                 ("session_key", session_key);
                 ("meeting_key", meeting_key);
                 ("driver_number", driver_number);
                 ("pit_duration", pit_duration);
                 ("lap_number", lap_number)])) ;;
              ret (insert_count + 1)) 0 ;;
            conn_commit conn ;;
            print ("✅ Successfully inserted " +:+ pretty insert_count
                   +:+ " records into f1_data table")))
         (λ e,
            print ("❌ Error: " +:+ str_exn e) ;;
            raise e))
      (engine_dispose engine).

(** ** Reading the store *)

(** The dict a value refers to. *)
Definition read_dict (h : gmap loc obj) (x : val) : option (gmap string val) :=
  match x with
  | VRef a => match h !! a with
              | Some (ODict d) => Some d
              | _ => None
              end
  | _ => None
  end.

(** The list of records (dicts) a value refers to. *)
Definition read_rows (h : gmap loc obj) (v : val) : option (list (gmap string val)) :=
  match v with
  | VRef l => match h !! l with
              | Some (OList xs) => mapM (read_dict h) xs
              | _ => None
              end
  | _ => None
  end.

Definition six_keys : list string :=
  ["date"; "session_key"; "meeting_key"; "driver_number"; "pit_duration"; "lap_number"].

(** The dict that both tasks build from a record: each of the six keys
    with [record.get(key)]. *)
Definition six_fields (r : gmap string val) : gmap string val :=
  dict_display ((λ k, (k, default VNone (r !! k))) <$> six_keys).

(** The insert calls of a list of parameter dicts, in order. *)
Definition insert_calls (ps : list (gmap string val)) : list call :=
  (λ p, Execute (INSERT_INTO_f1_data p)) <$> ps.

(** The round trips of a complete run for a URL and parameter dicts. *)
Definition run_calls (url : string) (ps : list (gmap string val)) : list call :=
  [Connect url; Execute CREATE_TABLE_IF_NOT_EXISTS_f1_data; Commit]
  ++ insert_calls ps ++ [Commit].

(** ** Sample inputs *)

(** The record of the end-to-end scenario of the specification, with a
    key that the pipeline does not use, and a record without any key. *)
Definition sample_record : gmap string val :=
  dict_display
    [("date", VStr "2025-11-29T10:00:00");
     ("session_key", VInt 9158);
     ("meeting_key", VInt 100);
     ("driver_number", VInt 44);
     ("pit_duration", VFloat (S754_finite false 5179139571476070 (-51)));
     ("lap_number", VInt 12);
     ("pit_stop_duration", VNone)].

Definition sample_heap : gmap loc obj :=
  <[1%positive := OList [VRef 2%positive; VRef 3%positive]]>
  (<[2%positive := ODict sample_record]>
  (<[3%positive := ODict ∅]> ∅)).

Definition no_network : string → exn + response :=
  λ _, inl (LibraryError "ConnectionError" "Network is unreachable").

Definition no_fault : nat → option exn := λ _, None.

Definition sample_world : world :=
  World (<["DATABASE_URL" := "postgresql://localhost/f1"]> ∅) no_network
        sample_heap [] no_fault 0 None (Database false []) [].

(** An endpoint that answers every GET with the given status and, as
    decoded body, the list at address 1. *)
Definition answering (status : Z) : string → exn + response :=
  λ _, inr (Response status (inr (VRef 1%positive))).



(** The same process without the connection URL, and with an empty one. *)
Definition sample_world_unset : world :=
  World ∅ no_network sample_heap [] no_fault 0 None (Database false []) [].

Definition sample_world_empty : world :=
  World (<["DATABASE_URL" := ""]> ∅) no_network
        sample_heap [] no_fault 0 None (Database false []) [].

(** Round trip [p] raises [e], every other one succeeds. *)
Definition fault_at (p : nat) (e : exn) : nat → option exn :=
  λ j, if decide (j = p) then Some e else None.

Definition server_gone : exn :=
  LibraryError "OperationalError" "server closed the connection unexpectedly".

(** The sample process when round trip [p] of the run fails. *)
Definition sample_world_failing (p : nat) : world :=
  World (<["DATABASE_URL" := "postgresql://localhost/f1"]> ∅) no_network
        sample_heap [] (fault_at p server_gone) 0 None (Database false []) [].


(** ** The pipeline *)

(** The three tasks in the order of their dependencies: each runs once,
    its return value is the argument of the next, and a task that raises
    ends the run.  (The scheduler hands the values over between
    processes; here the tasks share one store.) *)
Definition pipeline (fuel : nat) : M unit :=
  f1_data <- extract_data ;;
  transformed_data <- transform_data fuel f1_data ;;
  load_data_into_database fuel transformed_data.

(** ** More sample inputs *)

(** An endpoint that answers 200 with the given result of [.json()]. *)
Definition answering_body (body : exn + val) : string → exn + response :=
  λ _, inr (Response 200 body).

Definition not_json : exn :=
  LibraryError "JSONDecodeError" "Expecting value: line 1 column 1 (char 0)".

Definition sample_world_body (body : exn + val) : world :=
  World ∅ (answering_body body) sample_heap [] no_fault 0 None (Database false []) [].

(** A list whose second slot holds [None] instead of a record. *)
Definition sample_heap_bad : gmap loc obj :=
  <[7%positive := OList [VRef 2%positive; VNone; VRef 3%positive]]> sample_heap.

Definition sample_world_bad : world :=
  World (<["DATABASE_URL" := "postgresql://localhost/f1"]> ∅) no_network
        sample_heap_bad [] no_fault 0 None (Database false []) [].

(** The whole pipeline: the endpoint answers with the list at address 1
    and the connection URL is set. *)
Definition sample_world_pipeline (status : Z) : world :=
  World (<["DATABASE_URL" := "postgresql://localhost/f1"]> ∅) (answering status)
        sample_heap [] no_fault 0 None (Database true [six_fields ∅]) [].

Definition sample_world_pipeline_unset : world :=
  World ∅ (answering 200) sample_heap [] no_fault 0 None (Database false []) [].

(** ** What the loader leaves alone *)

(** Two states of the same process: the environment, the endpoint, the
    store and the behaviour of the server are the same; the printed lines,
    the calls made and the database may differ. *)
Definition same_process (w w' : world) : Prop :=
  environ w' = environ w ∧ network w' = network w
  ∧ heap w' = heap w ∧ faults w' = faults w.

(** From [w], the computation [m] ends (it returns or raises within its
    loop budget) in a state of the same process. *)
Definition ends {A} (m : M A) (w : world) : Prop :=
  (m w).1 ≠ OutOfFuel ∧ same_process w (m w).2.

(** * Properties *)

Local Arguments String.append : simpl never.
Local Arguments pretty : simpl never.

(** ** The tasks on the sample inputs *)

Example transform_data_sample :
  let '(r, w') := transform_data 2 (VRef 1%positive) sample_world in
  r = Ret (VRef 4%positive)
  ∧ heap w' !! 4%positive = Some (OList [VRef 5%positive; VRef 6%positive])
  ∧ read_rows (heap w') (VRef 4%positive)
    = Some [delete "pit_stop_duration" sample_record;
            dict_display [("date", VNone); ("session_key", VNone);
                          ("meeting_key", VNone); ("driver_number", VNone);
                          ("pit_duration", VNone); ("lap_number", VNone)]]
  ∧ stdout w' = ["✅ Transformed 2 records"]
  ∧ trace w' = [].
Proof. vm_compute. done. Qed.

Example transform_data_budget :
  (transform_data 1 (VRef 1%positive) sample_world).1 = OutOfFuel.
Proof. reflexivity. Qed.

Example transform_data_not_a_list :
  (transform_data 2 (VInt 7) sample_world).1
  = Raise (TypeError "'int' object is not iterable")
  ∧ (transform_data 2 (VRef 2%positive) sample_world).1
    = Raise (AttributeError "'str' object has no attribute 'get'").
Proof. split; reflexivity. Qed.

Example load_sample :
  let '(r, w') := load_data_into_database 2 (VRef 1%positive) sample_world in
  r = Ret tt
  ∧ db w' = Database true [six_fields sample_record; six_fields ∅]
  ∧ conn w' = None
  ∧ round_trips w' = 6
  ∧ stdout w' = ["✅ Table created/verified";
                 "✅ Successfully inserted 2 records into f1_data table"].
Proof. vm_compute. done. Qed.

Example load_sample_failing :
  let '(r, w') := load_data_into_database 2 (VRef 1%positive) (sample_world_failing 4) in
  r = Raise server_gone
  ∧ db w' = Database true []
  ∧ conn w' = None
  ∧ trace w' = [Connect "postgresql://localhost/f1";
                Execute CREATE_TABLE_IF_NOT_EXISTS_f1_data; Commit;
                Execute (INSERT_INTO_f1_data (six_fields sample_record));
                Execute (INSERT_INTO_f1_data (six_fields ∅));
                Close; Dispose]
  ∧ stdout w' = ["✅ Table created/verified";
                 "❌ Error: server closed the connection unexpectedly"].
Proof. vm_compute. done. Qed.

Example chars_sample : chars "a✅b" = [VStr "a"; VStr "✅"; VStr "b"].
Proof. reflexivity. Qed.

(** ** The monad *)

Lemma bind_Ret {A B} (m : M A) (k : A → M B) w a w' :
  m w = (Ret a, w') → bind m k w = k a w'.
Proof. unfold bind. by intros ->. Qed.

Lemma bind_Raise {A B} (m : M A) (k : A → M B) w e w' :
  m w = (Raise e, w') → bind m k w = (Raise e, w').
Proof. unfold bind. by intros ->. Qed.

Lemma bind_OutOfFuel {A B} (m : M A) (k : A → M B) w w' :
  m w = (OutOfFuel, w') → bind m k w = (OutOfFuel, w').
Proof. unfold bind. by intros ->. Qed.

Lemma bind_Ret_eq {A B} (m : M A) (k : A → M B) w a w' r :
  m w = (Ret a, w') → k a w' = r → bind m k w = r.
Proof. unfold bind. by intros -> <-. Qed.

Lemma try_except_Ret {A} (body : M A) handler w a w' :
  body w = (Ret a, w') → try_except body handler w = (Ret a, w').
Proof. unfold try_except. by intros ->. Qed.

Lemma try_except_Raise {A} (body : M A) handler w e w' r :
  body w = (Raise e, w') → handler e w' = r → try_except body handler w = r.
Proof. unfold try_except. by intros -> <-. Qed.

Lemma try_finally_Ret {A} (body : M A) fin w a w' w'' :
  body w = (Ret a, w') → fin w' = (Ret tt, w'') →
  try_finally body fin w = (Ret a, w'').
Proof. unfold try_finally. by intros -> ->. Qed.

Lemma try_finally_Raise {A} (body : M A) fin w e w' w'' :
  body w = (Raise e, w') → fin w' = (Ret tt, w'') →
  try_finally body fin w = (Raise e, w'').
Proof. unfold try_finally. by intros -> ->. Qed.

Lemma with_as_Ret {R A} (enter : M R) exit_ (body : R → M A) w x w1 a w2 w3 :
  enter w = (Ret x, w1) → body x w1 = (Ret a, w2) → exit_ x w2 = (Ret tt, w3) →
  with_as enter exit_ body w = (Ret a, w3).
Proof.
  intros He Hb Hx. unfold with_as.
  eapply bind_Ret_eq; [exact He |]. by eapply try_finally_Ret.
Qed.

Lemma with_as_Raise {R A} (enter : M R) exit_ (body : R → M A) w x w1 e w2 w3 :
  enter w = (Ret x, w1) → body x w1 = (Raise e, w2) → exit_ x w2 = (Ret tt, w3) →
  with_as enter exit_ body w = (Raise e, w3).
Proof.
  intros He Hb Hx. unfold with_as.
  eapply bind_Ret_eq; [exact He |]. by eapply try_finally_Raise.
Qed.

Lemma with_as_enter_Raise {R A} (enter : M R) exit_ (body : R → M A) w e w1 :
  enter w = (Raise e, w1) → with_as enter exit_ body w = (Raise e, w1).
Proof. intros He. unfold with_as. by apply bind_Raise. Qed.

(** ** The six fields *)

Lemma six_fields_lookup r k :
  k ∈ six_keys → six_fields r !! k = Some (default VNone (r !! k)).
Proof.
  unfold six_keys. rewrite !elem_of_cons, elem_of_nil.
  intros Hk. unfold six_fields, dict_display. simpl.
  repeat (destruct Hk as [-> | Hk]; [by simplify_map_eq |]). done.
Qed.

Lemma six_fields_dom r : dom (six_fields r) = list_to_set six_keys.
Proof.
  unfold six_fields, dict_display. simpl.
  rewrite !dom_insert_L, dom_empty_L. set_solver.
Qed.

Lemma six_fields_absent r k :
  k ∈ six_keys → r !! k = None → six_fields r !! k = Some VNone.
Proof. intros Hk Hr. by rewrite six_fields_lookup, Hr. Qed.

Lemma six_fields_extra r k : k ∉ six_keys → six_fields r !! k = None.
Proof.
  intros Hk. apply not_elem_of_dom. rewrite six_fields_dom. set_solver.
Qed.

(** ** Reading is stable when the store grows *)

Lemma read_dict_mono h h' x d :
  h ⊆ h' → read_dict h x = Some d → read_dict h' x = Some d.
Proof.
  intros Hsub. destruct x as [| | | | |a]; simpl; try done.
  destruct (h !! a) as [[|d']|] eqn:Ha; try done.
  intros [= ->]. by rewrite (lookup_weaken _ _ _ _ Ha Hsub).
Qed.

Lemma mapM_read_dict_mono h h' xs rs :
  h ⊆ h' → mapM (read_dict h) xs = Some rs → mapM (read_dict h') xs = Some rs.
Proof.
  intros Hsub. rewrite !mapM_Some. intros Hall.
  eapply Forall2_impl; [exact Hall |].
  intros x d. by apply read_dict_mono.
Qed.

Lemma read_rows_mono h h' v rs :
  h ⊆ h' → read_rows h v = Some rs → read_rows h' v = Some rs.
Proof.
  intros Hsub. destruct v as [| | | | |l]; simpl; try done.
  destruct (h !! l) as [[xs|]|] eqn:Hl; try done.
  rewrite (lookup_weaken _ _ _ _ Hl Hsub). by apply mapM_read_dict_mono.
Qed.

Lemma read_rows_items h v rs :
  read_rows h v = Some rs →
  ∃ xs, items h v = Some xs ∧ mapM (read_dict h) xs = Some rs.
Proof.
  destruct v as [| | | | |l]; simpl; try done.
  destruct (h !! l) as [[xs|]|]; try done. eauto.
Qed.

Lemma dict_get_read w x d key :
  read_dict (heap w) x = Some d →
  dict_get x key w = (Ret (default VNone (d !! key)), w).
Proof.
  destruct x as [| | | | |a]; simpl; try done.
  destruct (heap w !! a) as [[|d']|]; try done. by intros [= ->].
Qed.

(** ** The loop rule *)

(** A [for] loop over an iterable that the body leaves as it is: an
    invariant [I] indexed by the slot reached, and a postcondition [Q] for
    the exceptions the body lets escape.  With one unit of fuel per slot
    the loop ends. *)
Lemma for_from_rule {St} (I : nat → St → world → Prop) (Q : exn → world → Prop)
    v xs (body : val → St → M St) :
  (∀ i s w, I i s w → items (heap w) v = Some xs) →
  (∀ i x s w, I i s w → xs !! i = Some x →
     match body x s w with
     | (Ret s', w') => I (S i) s' w'
     | (Raise e, w') => Q e w'
     | (OutOfFuel, _) => False
     end) →
  ∀ fuel i s w, I i s w → i ≤ length xs → length xs ≤ i + fuel →
    match for_from fuel v i body s w with
    | (Ret s', w') => I (length xs) s' w'
    | (Raise e, w') => Q e w'
    | (OutOfFuel, _) => False
    end.
Proof.
  intros Hitems Hbody. induction fuel as [|fuel IH]; intros i s w HI Hle Hfuel.
  - assert (i = length xs) as -> by lia.
    simpl. unfold bind, iterable. rewrite (Hitems _ _ _ HI).
    by rewrite (lookup_ge_None_2 xs (length xs)) by lia.
  - simpl. unfold bind at 1. unfold iterable. rewrite (Hitems _ _ _ HI).
    destruct (xs !! i) as [x|] eqn:Hx.
    + specialize (Hbody i x s w HI Hx). unfold bind.
      destruct (body x s w) as [[s'| e |] w']; try done.
      apply IH; [done | | lia].
      apply lookup_lt_Some in Hx. lia.
    + apply lookup_ge_None_1 in Hx. assert (i = length xs) as -> by lia. done.
Qed.

(** ** transform_data *)

Lemma items_list h l xs : h !! l = Some (OList xs) → items h (VRef l) = Some xs.
Proof. simpl. by intros ->. Qed.

(** A dict read before stays readable after a new object is stored and a
    list is replaced. *)
Lemma read_dict_insert_list h t o x d :
  (∀ d', h !! t ≠ Some (ODict d')) →
  read_dict h x = Some d → read_dict (<[t := o]> h) x = Some d.
Proof.
  intros Ht. destruct x as [| | | | |a]; simpl; try done.
  destruct (h !! a) as [[|d']|] eqn:Ha; try done. intros [= ->].
  rewrite lookup_insert_ne; [by rewrite Ha |]. intros ->. by eapply Ht.
Qed.

(** The loop of [transform_data], from any world in which the input is
    a list of records and [t] is a list of the rows built so far. *)
Lemma transform_loop w0 h0 l xs rs t fuel :
  h0 !! l = Some (OList xs) →
  mapM (read_dict h0) xs = Some rs →
  h0 !! t = None →
  h0 ⊆ heap w0 →
  heap w0 !! t = Some (OList []) →
  length rs ≤ fuel →
  ∃ h' outs,
    for_in fuel (VRef l) (λ f1_data _,
      date <- dict_get f1_data "date" ;;
      session_key <- dict_get f1_data "session_key" ;;
      meeting_key <- dict_get f1_data "meeting_key" ;;
      driver_number <- dict_get f1_data "driver_number" ;;
      pit_duration <- dict_get f1_data "pit_duration" ;;
      lap_number <- dict_get f1_data "lap_number" ;;
      row <- alloc (ODict (dict_display
               [("date", date);
                ("session_key", session_key);
                ("meeting_key", meeting_key);
                ("driver_number", driver_number);
                ("pit_duration", pit_duration);
                ("lap_number", lap_number)])) ;;
      list_append (VRef t) row) tt w0 = (Ret tt, set_heap h' w0)
    ∧ h0 ⊆ h'
    ∧ h' !! t = Some (OList outs)
    ∧ mapM (read_dict h') outs = Some (six_fields <$> rs).
Proof.
  intros Hl Hxs Ht Hsub Ht0 Hfuel.
  assert (length xs = length rs) as Hlen.
  { apply mapM_Some in Hxs. by eapply Forall2_length. }
  set (I := λ (i : nat) (_ : unit) (w : world),
    w = set_heap (heap w) w0 ∧ h0 ⊆ heap w ∧
    ∃ outs, heap w !! t = Some (OList outs) ∧
            mapM (read_dict (heap w)) outs = Some (six_fields <$> take i rs)).
  unfold for_in.
  match goal with |- ∃ _ _, for_from _ _ _ ?b _ _ = _ ∧ _ => set (body := b) end.
  assert (I 0 tt w0) as HI0.
  { repeat split; [by destruct w0 | done |].
    exists []. by rewrite Ht0. }
  assert (∀ i x s w, I i s w → xs !! i = Some x →
            match body x s w with
            | (Ret s', w') => I (S i) s' w'
            | (Raise e, w') => False
            | (OutOfFuel, _) => False
            end) as Hbody.
  { intros i x [] w (Hw & Hs & outs & Hout & Hread) Hx.
    apply mapM_Some in Hxs.
    destruct (Forall2_lookup_l _ _ _ _ _ Hxs Hx) as (r & Hr & Hrd).
    apply (read_dict_mono _ _ _ _ Hs) in Hrd.
    unfold body.
    repeat (erewrite bind_Ret; [| by apply dict_get_read]).
    unfold bind, alloc, list_append. simpl.
    set (a := fresh (dom (heap w))).
    assert (heap w !! a = None) as Ha.
    { apply not_elem_of_dom, is_fresh. }
    assert (a ≠ t) as Hat by (intros ->; congruence).
    rewrite lookup_insert_ne by done. rewrite Hout.
    unfold I. simpl. split; [by rewrite Hw |]. split.
    - apply insert_subseteq_r; [done |].
      apply insert_subseteq_r; [by eapply lookup_weaken_None | done].
    - exists (outs ++ [VRef a]). split; [by rewrite lookup_insert_eq |].
      rewrite (take_S_r _ _ _ Hr), fmap_app. simpl.
      apply mapM_Some, Forall2_app.
      + apply mapM_Some in Hread.
        eapply Forall2_impl; [exact Hread |]. intros y d Hy.
        apply read_dict_insert_list; [| apply read_dict_insert_list; [| done]].
        * intros d'. rewrite lookup_insert_ne by done. congruence.
        * intros d'. congruence.
      + constructor; [| constructor]. simpl.
        rewrite lookup_insert_ne by done. by rewrite lookup_insert_eq. }
  pose proof (for_from_rule I (λ _ _, False) (VRef l) xs body
    ltac:(intros i s w (_ & Hs & _); apply items_list; by eapply lookup_weaken)
    Hbody fuel 0 tt w0 HI0 ltac:(lia) ltac:(lia)) as Hrule.
  destruct (for_from fuel (VRef l) 0 body tt w0) as [[[]| |] w']; try done.
  destruct Hrule as (Hw' & Hs' & outs & Hout & Hread).
  exists (heap w'), outs. rewrite Hlen, firstn_all in Hread.
  repeat split; try done. by rewrite <- Hw'.
Qed.

(** [transform_data] on a list of records: it returns a new list of new
    dicts, the six fields of each record in order, prints its count, and
    changes nothing else; the objects that existed are as they were. *)
Lemma transform_data_run w v rs fuel :
  read_rows (heap w) v = Some rs →
  length rs ≤ fuel →
  ∃ t h',
    transform_data fuel v w =
      (Ret (VRef t),
       set_stdout (stdout w ++ ["✅ Transformed " +:+ pretty (length rs) +:+ " records"])
         (set_heap h' w))
    ∧ heap w !! t = None
    ∧ heap w ⊆ h'
    ∧ read_rows h' (VRef t) = Some (six_fields <$> rs).
Proof.
  intros Hrows Hfuel.
  destruct v as [| | | | |l]; simpl in Hrows; try done.
  destruct (heap w !! l) as [[xs|]|] eqn:Hl; try done.
  set (t := fresh (dom (heap w))).
  assert (heap w !! t = None) as Ht by apply not_elem_of_dom, is_fresh.
  destruct (transform_loop (set_heap (<[t := OList []]> (heap w)) w)
              (heap w) l xs rs t fuel) as (h' & outs & Hrun & Hsub & Hout & Hread);
    try done.
  { by apply insert_subseteq. }
  { simpl. by rewrite lookup_insert_eq. }
  exists t, h'. split; [| split; [done | split; [done |]]].
  - unfold transform_data. unfold bind at 1. unfold alloc at 1. fold t.
    erewrite bind_Ret; [| exact Hrun].
    unfold bind, len, print, ret. simpl. rewrite Hout.
    apply mapM_Some, Forall2_length in Hread.
    rewrite Hread, length_fmap. done.
  - simpl. by rewrite Hout.
Qed.

(** C1.  For every input list of raw records (given enough loop budget),
    [transform_data] returns a list of the same length and in the same
    order whose [i]-th row is a dict with exactly the six keys, each
    holding the value the [i]-th record has under that key, or [None]
    when the record has no such key; other keys of the record are not
    copied. *)
Theorem transform_data_rows w v rs fuel :
  read_rows (heap w) v = Some rs →
  length rs ≤ fuel →
  ∃ out w' rows,
    transform_data fuel v w = (Ret out, w')
    ∧ read_rows (heap w') out = Some rows
    ∧ length rows = length rs
    ∧ ∀ i r, rs !! i = Some r →
        ∃ row, rows !! i = Some row
          ∧ dom row = list_to_set six_keys
          ∧ ∀ k, k ∈ six_keys →
              (∀ x, r !! k = Some x → row !! k = Some x)
              ∧ (r !! k = None → row !! k = Some VNone).
Proof.
  intros Hrows Hfuel.
  destruct (transform_data_run w v rs fuel Hrows Hfuel)
    as (t & h' & Hrun & _ & _ & Hread).
  eexists _, _, _. split; [exact Hrun |]. split; [exact Hread |].
  split; [by rewrite length_fmap |].
  intros i r Hr. exists (six_fields r).
  split; [by rewrite list_lookup_fmap, Hr |].
  split; [apply six_fields_dom |].
  intros k Hk. rewrite six_fields_lookup by done.
  split; [by intros x -> | by intros ->].
Qed.

Lemma transform_data_rows_witness :
  ∃ out w' rows,
    transform_data 2 (VRef 1%positive) sample_world = (Ret out, w')
    ∧ read_rows (heap w') out = Some rows
    ∧ length rows = length [sample_record; ∅]
    ∧ ∀ i r, [sample_record; ∅] !! i = Some r →
        ∃ row, rows !! i = Some row
          ∧ dom row = list_to_set six_keys
          ∧ ∀ k, k ∈ six_keys →
              (∀ x, r !! k = Some x → row !! k = Some x)
              ∧ (r !! k = None → row !! k = Some VNone).
Proof.
  apply (transform_data_rows sample_world (VRef 1%positive) [sample_record; ∅] 2).
  - reflexivity.
  - simpl. lia.
Defined.

(** C8.  [transform_data] is deterministic and leaves its input alone:
    called twice on the same list of records, the second time in the
    state the first call left, it returns two lists with identical
    contents; every object that existed before the calls, the input list
    and its records among them, is unchanged; and nothing but the store
    and the printed lines differs afterwards (no call leaves the
    process). *)
Theorem transform_data_deterministic w v rs fuel :
  read_rows (heap w) v = Some rs →
  length rs ≤ fuel →
  ∃ out1 w1 out2 w2 rows,
    transform_data fuel v w = (Ret out1, w1)
    ∧ transform_data fuel v w1 = (Ret out2, w2)
    ∧ read_rows (heap w2) out1 = Some rows
    ∧ read_rows (heap w2) out2 = Some rows
    ∧ read_rows (heap w1) v = Some rs
    ∧ read_rows (heap w2) v = Some rs
    ∧ heap w ⊆ heap w1
    ∧ heap w1 ⊆ heap w2
    ∧ w2 = set_stdout (stdout w2) (set_heap (heap w2) w).
Proof.
  intros Hrows Hfuel.
  destruct (transform_data_run w v rs fuel Hrows Hfuel)
    as (t1 & h1 & Hrun1 & _ & Hsub1 & Hread1).
  set (w1 := set_stdout
               (stdout w ++ ["✅ Transformed " +:+ pretty (length rs) +:+ " records"])
               (set_heap h1 w)) in *.
  assert (read_rows (heap w1) v = Some rs) as Hrows1.
  { by apply (read_rows_mono (heap w)). }
  destruct (transform_data_run w1 v rs fuel Hrows1 Hfuel)
    as (t2 & h2 & Hrun2 & _ & Hsub2 & Hread2).
  eexists _, _, _, _, _.
  split; [exact Hrun1 |]. split; [exact Hrun2 |].
  split; [by apply (read_rows_mono h1 h2) |]. split; [exact Hread2 |].
  split; [done |]. split; [by apply (read_rows_mono h1 h2) |]. done.
Qed.

Lemma transform_data_deterministic_witness :
  ∃ out1 w1 out2 w2 rows,
    transform_data 2 (VRef 1%positive) sample_world = (Ret out1, w1)
    ∧ transform_data 2 (VRef 1%positive) w1 = (Ret out2, w2)
    ∧ read_rows (heap w2) out1 = Some rows
    ∧ read_rows (heap w2) out2 = Some rows
    ∧ read_rows (heap w1) (VRef 1%positive) = Some [sample_record; ∅]
    ∧ read_rows (heap w2) (VRef 1%positive) = Some [sample_record; ∅]
    ∧ heap sample_world ⊆ heap w1
    ∧ heap w1 ⊆ heap w2
    ∧ w2 = set_stdout (stdout w2) (set_heap (heap w2) sample_world).
Proof.
  apply (transform_data_deterministic sample_world (VRef 1%positive)
           [sample_record; ∅] 2).
  - reflexivity.
  - simpl. lia.
Defined.

(** ** extract_data *)



(** ** load_data_into_database: the configuration check *)

(** The check [not DATABASE_URL] stops the loader at once, with the state
    it found. *)
Lemma load_config_error w fuel v :
  environ w !! "DATABASE_URL" = None ∨ environ w !! "DATABASE_URL" = Some "" →
  load_data_into_database fuel v w =
    (Raise (RuntimeError
       "DATABASE_URL not set in environment. Add it to a .env file or export it."),
     w).
Proof.
  unfold load_data_into_database, bind, os_environ_get, py_not.
  by intros [-> | ->].
Qed.

(** C4.  Without [DATABASE_URL] in the environment the loader raises its
    configuration error, whatever rows it is given, and the state is
    exactly as before: no engine, no connection attempt, no round trip,
    no call of any kind. *)
Theorem load_without_url w fuel v :
  environ w !! "DATABASE_URL" = None →
  load_data_into_database fuel v w =
    (Raise (RuntimeError
       "DATABASE_URL not set in environment. Add it to a .env file or export it."),
     w)
  ∧ trace (load_data_into_database fuel v w).2 = trace w
  ∧ round_trips (load_data_into_database fuel v w).2 = round_trips w
  ∧ conn (load_data_into_database fuel v w).2 = conn w.
Proof.
  intros Henv. by rewrite load_config_error by by left.
Qed.

Lemma load_without_url_witness :
  load_data_into_database 2 (VRef 1%positive) sample_world_unset =
    (Raise (RuntimeError
       "DATABASE_URL not set in environment. Add it to a .env file or export it."),
     sample_world_unset)
  ∧ trace (load_data_into_database 2 (VRef 1%positive) sample_world_unset).2 = []
  ∧ round_trips (load_data_into_database 2 (VRef 1%positive) sample_world_unset).2 = 0
  ∧ conn (load_data_into_database 2 (VRef 1%positive) sample_world_unset).2 = None.
Proof.
  apply (load_without_url sample_world_unset 2 (VRef 1%positive)).
  reflexivity.
Defined.

(** C9.  An empty [DATABASE_URL] is treated as an absent one: the check
    is [not DATABASE_URL], so the loader raises the same configuration
    error, before any call, and the state is as before. *)
Theorem load_with_empty_url w fuel v :
  environ w !! "DATABASE_URL" = Some "" →
  load_data_into_database fuel v w =
    (Raise (RuntimeError
       "DATABASE_URL not set in environment. Add it to a .env file or export it."),
     w)
  ∧ trace (load_data_into_database fuel v w).2 = trace w
  ∧ round_trips (load_data_into_database fuel v w).2 = round_trips w
  ∧ ∀ w0 fuel0 v0,
      environ w0 !! "DATABASE_URL" = None →
      (load_data_into_database fuel0 v0 w0).1 = (load_data_into_database fuel v w).1.
Proof.
  intros Henv. rewrite load_config_error by by right.
  repeat split. intros w0 fuel0 v0 Hunset.
  by rewrite load_config_error by by left.
Qed.

Lemma load_with_empty_url_witness :
  load_data_into_database 2 (VRef 1%positive) sample_world_empty =
    (Raise (RuntimeError
       "DATABASE_URL not set in environment. Add it to a .env file or export it."),
     sample_world_empty)
  ∧ trace (load_data_into_database 2 (VRef 1%positive) sample_world_empty).2 = []
  ∧ round_trips (load_data_into_database 2 (VRef 1%positive) sample_world_empty).2 = 0
  ∧ ∀ w0 fuel0 v0,
      environ w0 !! "DATABASE_URL" = None →
      (load_data_into_database fuel0 v0 w0).1
      = (load_data_into_database 2 (VRef 1%positive) sample_world_empty).1.
Proof.
  apply (load_with_empty_url sample_world_empty 2 (VRef 1%positive)).
  reflexivity.
Defined.

(** ** The database client *)

Lemma round_trip_ok w :
  faults w (round_trips w) = None → round_trip w = (Ret tt, count_trip w).
Proof. unfold round_trip. by intros ->. Qed.

Lemma round_trip_fail w e :
  faults w (round_trips w) = Some e → round_trip w = (Raise e, count_trip w).
Proof. unfold round_trip. by intros ->. Qed.

Lemma engine_connect_ok e w :
  faults w (round_trips w) = None →
  engine_connect e w =
    (Ret Conn, set_conn (Some (Connection false []))
                 (count_trip (log_call (Connect (engine_url e)) w))).
Proof. intros H. unfold engine_connect. by rewrite round_trip_ok. Qed.

Lemma engine_connect_fail e w ex :
  faults w (round_trips w) = Some ex →
  engine_connect e w = (Raise ex, count_trip (log_call (Connect (engine_url e)) w)).
Proof. intros H. unfold engine_connect. by rewrite (round_trip_fail _ ex). Qed.

Lemma conn_execute_ok h s w c :
  conn w = Some c →
  faults w (round_trips w) = None →
  conn_execute h s w =
    (Ret tt,
     set_conn (Some match s with
                    | CREATE_TABLE_IF_NOT_EXISTS_f1_data =>
                        Connection true (pending_rows c)
                    | INSERT_INTO_f1_data params =>
                        Connection (pending_ddl c) (pending_rows c ++ [params])
                    end)
       (count_trip (log_call (Execute s) w))).
Proof. intros Hc H. unfold conn_execute. rewrite Hc. by rewrite round_trip_ok. Qed.

Lemma conn_execute_fail h s w c ex :
  conn w = Some c →
  faults w (round_trips w) = Some ex →
  conn_execute h s w = (Raise ex, count_trip (log_call (Execute s) w)).
Proof.
  intros Hc H. unfold conn_execute. rewrite Hc. by rewrite (round_trip_fail _ ex).
Qed.

Lemma conn_commit_ok h w c :
  conn w = Some c →
  faults w (round_trips w) = None →
  conn_commit h w =
    (Ret tt,
     set_conn (Some (Connection false []))
       (set_db (Database (table_exists (db w) || pending_ddl c)
                         (rows (db w) ++ pending_rows c))
          (count_trip (log_call Commit w)))).
Proof. intros Hc H. unfold conn_commit. rewrite Hc. by rewrite round_trip_ok. Qed.

Lemma conn_commit_fail h w c ex :
  conn w = Some c →
  faults w (round_trips w) = Some ex →
  conn_commit h w = (Raise ex, count_trip (log_call Commit w)).
Proof.
  intros Hc H. unfold conn_commit. rewrite Hc. by rewrite (round_trip_fail _ ex).
Qed.

(** ** load_data_into_database: the insert loop *)

Section insert_loop.
Context (w1 : world) (v : val) (xs : list val) (rs : list (gmap string val)).
Hypothesis Hitems : items (heap w1) v = Some xs.
Hypothesis Hdicts : mapM (read_dict (heap w1)) xs = Some rs.
Hypothesis Hconn : conn w1 = Some (Connection false []).

(** The loop of the loader, as in the source. *)
Let loop (fuel : nat) : M nat :=
  for_in fuel v (λ data insert_count,
    date <- dict_get data "date" ;;
    session_key <- dict_get data "session_key" ;;
    meeting_key <- dict_get data "meeting_key" ;;
    driver_number <- dict_get data "driver_number" ;;
    pit_duration <- dict_get data "pit_duration" ;;
    lap_number <- dict_get data "lap_number" ;;
    conn_execute Conn (INSERT_INTO_f1_data (dict_display
      [("date", date);
       ("session_key", session_key);
       ("meeting_key", meeting_key);
       ("driver_number", driver_number);
       ("pit_duration", pit_duration);
       ("lap_number", lap_number)])) ;;
    ret (insert_count + 1)) 0.

(** The state after [i] successful inserts. *)
Let after (i : nat) : world :=
  World (environ w1) (network w1) (heap w1) (stdout w1) (faults w1)
        (i + round_trips w1)
        (Some (Connection false (take i (six_fields <$> rs))))
        (db w1)
        (trace w1 ++ insert_calls (take i (six_fields <$> rs))).

Local Lemma after_0 : after 0 = w1.
Proof.
  unfold after, insert_calls. rewrite take_0. simpl.
  rewrite app_nil_r, <- Hconn. by destruct w1.
Qed.

Local Lemma after_S i r :
  rs !! i = Some r →
  set_conn (Some (Connection false (take i (six_fields <$> rs) ++ [six_fields r])))
    (count_trip (log_call (Execute (INSERT_INTO_f1_data (six_fields r))) (after i)))
  = after (S i).
Proof.
  intros Hr. unfold after, set_conn, count_trip, log_call, insert_calls. simpl.
  assert ((six_fields <$> rs) !! i = Some (six_fields r)) as Hp.
  { by rewrite list_lookup_fmap, Hr. }
  rewrite (take_S_r _ _ _ Hp), fmap_app, app_assoc. done.
Qed.

Local Lemma length_xs : length xs = length rs.
Proof. apply mapM_Some in Hdicts. by eapply Forall2_length. Qed.

(** Every insert succeeds: the loop counts the rows and leaves them all
    in the open transaction. *)
Lemma insert_loop_ok fuel :
  length rs ≤ fuel →
  (∀ j, j < length rs → faults w1 (j + round_trips w1) = None) →
  loop fuel w1 = (Ret (length rs), after (length rs)).
Proof.
  intros Hfuel Hok. unfold loop, for_in.
  match goal with |- for_from _ _ _ ?b _ _ = _ => set (body := b) end.
  pose proof (for_from_rule
    (λ i c w, c = i ∧ w = after i) (λ _ _, False) v xs body) as Hrule.
  rewrite <- length_xs in *.
  specialize (Hrule
    ltac:(by intros i c w [_ ->])).
  assert (∀ i x s w, s = i ∧ w = after i → xs !! i = Some x →
            match body x s w with
            | (Ret s', w') => s' = S i ∧ w' = after (S i)
            | _ => False
            end) as Hbody.
  { intros i x c w [-> ->] Hx.
    apply mapM_Some in Hdicts.
    destruct (Forall2_lookup_l _ _ _ _ _ Hdicts Hx) as (r & Hr & Hrd).
    unfold body.
    repeat (erewrite bind_Ret; [| by apply (dict_get_read (after i))]).
    erewrite bind_Ret;
      [| eapply conn_execute_ok;
         [reflexivity | apply Hok; by eapply lookup_lt_Some]].
    unfold ret. split; [lia |]. by apply after_S. }
  specialize (Hrule Hbody fuel 0 0 w1
    ltac:(split; [done | symmetry; apply after_0]) ltac:(lia) ltac:(lia)).
  destruct (for_from fuel v 0 body 0 w1) as [[c| |] w']; try done.
  by destruct Hrule as [-> ->].
Qed.

(** The insert of row [k] fails after [k] successful inserts: the loop
    lets the exception escape, with [k] rows in the open transaction. *)
Lemma insert_loop_fail fuel k r e :
  length rs ≤ fuel →
  rs !! k = Some r →
  (∀ j, j < k → faults w1 (j + round_trips w1) = None) →
  faults w1 (k + round_trips w1) = Some e →
  loop fuel w1 =
    (Raise e,
     count_trip (log_call (Execute (INSERT_INTO_f1_data (six_fields r))) (after k))).
Proof.
  intros Hfuel Hk Hok Hfail. unfold loop, for_in.
  match goal with |- for_from _ _ _ ?b _ _ = _ => set (body := b) end.
  pose proof (for_from_rule
    (λ i c w, i ≤ k ∧ c = i ∧ w = after i)
    (λ e' w, e' = e ∧
       w = count_trip (log_call (Execute (INSERT_INTO_f1_data (six_fields r)))
                         (after k)))
    v xs body) as Hrule.
  pose proof (lookup_lt_Some _ _ _ Hk) as Hlt.
  rewrite <- length_xs in *.
  specialize (Hrule ltac:(by intros i c w (_ & _ & ->))).
  assert (∀ i x s w, i ≤ k ∧ s = i ∧ w = after i → xs !! i = Some x →
            match body x s w with
            | (Ret s', w') => S i ≤ k ∧ s' = S i ∧ w' = after (S i)
            | (Raise e', w') =>
                e' = e ∧
                w' = count_trip
                       (log_call (Execute (INSERT_INTO_f1_data (six_fields r)))
                          (after k))
            | (OutOfFuel, _) => False
            end) as Hbody.
  { intros i x c w (Hik & -> & ->) Hx.
    apply mapM_Some in Hdicts.
    destruct (Forall2_lookup_l _ _ _ _ _ Hdicts Hx) as (r' & Hr' & Hrd).
    unfold body.
    repeat (erewrite bind_Ret; [| by apply (dict_get_read (after i))]).
    destruct (decide (i = k)) as [-> | Hne].
    - assert (r' = r) as -> by congruence.
      erewrite bind_Raise; [done |].
      eapply conn_execute_fail; [reflexivity | exact Hfail].
    - erewrite bind_Ret;
        [| eapply conn_execute_ok; [reflexivity | apply Hok; lia]].
      unfold ret. split; [lia |]. split; [lia |]. by apply after_S. }
  specialize (Hrule Hbody fuel 0 0 w1
    ltac:(split; [lia | split; [done | symmetry; apply after_0]])
    ltac:(lia) ltac:(lia)).
  destruct (for_from fuel v 0 body 0 w1) as [[c| e' |] w']; try done.
  - destruct Hrule as (Hle & _). lia.
  - by destruct Hrule as [-> ->].
Qed.
End insert_loop.

(** ** load_data_into_database: complete runs *)

Section loader.
Context (w : world) (v : val) (rs : list (gmap string val)) (url : string) (fuel : nat).
Hypothesis Henv : environ w !! "DATABASE_URL" = Some url.
Hypothesis Hurl : url ≠ "".
Hypothesis Hrows : read_rows (heap w) v = Some rs.
Hypothesis Hfuel : length rs ≤ fuel.

(** The configuration check passes and the engine is built. *)
Local Ltac prelude :=
  unfold load_data_into_database;
  unfold bind at 1; unfold os_environ_get at 1; rewrite Henv;
  unfold bind at 1; unfold py_not at 1; cbv beta iota;
  case_bool_decide; [contradiction |];
  unfold bind at 1; unfold create_engine at 1, ret at 1.

(** The fields of a final state, after [simpl]. *)
Local Ltac fields :=
  solve [ done | lia | by rewrite <- !app_assoc | by rewrite orb_true_r
        | by rewrite orb_false_r | by rewrite app_nil_r ].

(** No round trip fails: the run returns, with the table created, the
    six fields of every row committed in order, the two messages
    printed and the connection closed. *)
Lemma load_succeeds :
  (∀ j, j < 4 + length rs → faults w (j + round_trips w) = None) →
  ∃ w',
    load_data_into_database fuel v w = (Ret tt, w')
    ∧ heap w' = heap w
    ∧ stdout w' = stdout w ++
        ["✅ Table created/verified";
         "✅ Successfully inserted " +:+ pretty (length rs)
           +:+ " records into f1_data table"]
    ∧ round_trips w' = 4 + length rs + round_trips w
    ∧ conn w' = None
    ∧ table_exists (db w') = true
    ∧ rows (db w') = rows (db w) ++ (six_fields <$> rs)
    ∧ trace w' = trace w ++ run_calls url (six_fields <$> rs) ++ [Close; Dispose].
Proof.
  intros Hok.
  destruct (read_rows_items _ _ _ Hrows) as (xs & Hitems & Hdicts).
  eexists. split.
  - prelude.
    eapply try_finally_Ret; [| reflexivity].
    eapply try_except_Ret.
    eapply with_as_Ret; [apply engine_connect_ok, (Hok 0); lia | | reflexivity].
    eapply bind_Ret_eq;
      [eapply conn_execute_ok; [reflexivity | apply (Hok 1); lia] |].
    eapply bind_Ret_eq;
      [eapply conn_commit_ok; [reflexivity | apply (Hok 2); lia] |].
    eapply bind_Ret_eq; [reflexivity |].
    eapply bind_Ret_eq.
    { eapply (insert_loop_ok _ v xs rs); [exact Hitems | exact Hdicts | reflexivity
                                          | exact Hfuel |].
      intros j Hj. simpl. rewrite <- (Hok (3 + j)) by lia. f_equal. lia. }
    eapply bind_Ret_eq; [eapply conn_commit_ok; [reflexivity |] |].
    { simpl. rewrite <- (Hok (3 + length rs)) by lia. f_equal. lia. }
    reflexivity.
  - simpl. rewrite firstn_all2 by (by rewrite length_fmap).
    unfold run_calls. repeat split; fields.
Qed.

(** Round trip [p] is the first to fail, with [e]: the run raises [e]
    after printing it; the table has no new row; the connection, if it
    was opened, is closed. *)
Lemma load_fails p e :
  p < 4 + length rs →
  (∀ j, j < p → faults w (j + round_trips w) = None) →
  faults w (p + round_trips w) = Some e →
  ∃ w',
    load_data_into_database fuel v w = (Raise e, w')
    ∧ heap w' = heap w
    ∧ stdout w' = stdout w
        ++ (if decide (3 ≤ p) then ["✅ Table created/verified"] else [])
        ++ ["❌ Error: " +:+ str_exn e]
    ∧ round_trips w' = S p + round_trips w
    ∧ conn w' = (if decide (p = 0) then conn w else None)
    ∧ table_exists (db w') = (table_exists (db w) || bool_decide (3 ≤ p))
    ∧ rows (db w') = rows (db w)
    ∧ trace w' = trace w ++ take (S p) (run_calls url (six_fields <$> rs))
        ++ (if decide (p = 0) then [] else [Close]) ++ [Dispose].
Proof.
  intros Hp Hok Hfail.
  destruct (read_rows_items _ _ _ Hrows) as (xs & Hitems & Hdicts).
  destruct p as [|[|[|k]]].
  - (* the connection attempt fails *)
    eexists. split.
    + prelude.
      eapply try_finally_Raise; [| reflexivity].
      eapply try_except_Raise; [| reflexivity].
      eapply with_as_enter_Raise. apply engine_connect_fail, Hfail.
    + simpl. repeat split; fields.
  - (* the DDL fails *)
    eexists. split.
    + prelude.
      eapply try_finally_Raise; [| reflexivity].
      eapply try_except_Raise; [| reflexivity].
      eapply with_as_Raise; [apply engine_connect_ok, (Hok 0); lia | | reflexivity].
      eapply bind_Raise.
      eapply conn_execute_fail; [reflexivity | exact Hfail].
    + simpl. repeat split; fields.
  - (* the commit of the DDL fails *)
    eexists. split.
    + prelude.
      eapply try_finally_Raise; [| reflexivity].
      eapply try_except_Raise; [| reflexivity].
      eapply with_as_Raise; [apply engine_connect_ok, (Hok 0); lia | | reflexivity].
      eapply bind_Ret_eq;
        [eapply conn_execute_ok; [reflexivity | apply (Hok 1); lia] |].
      eapply bind_Raise.
      eapply conn_commit_fail; [reflexivity | exact Hfail].
    + simpl. repeat split; fields.
  - destruct (rs !! k) as [r|] eqn:Hr.
    + (* the insert of row [k] fails *)
      eexists. split.
      * prelude.
        eapply try_finally_Raise; [| reflexivity].
        eapply try_except_Raise; [| reflexivity].
        eapply with_as_Raise;
          [apply engine_connect_ok, (Hok 0); lia | | reflexivity].
        eapply bind_Ret_eq;
          [eapply conn_execute_ok; [reflexivity | apply (Hok 1); lia] |].
        eapply bind_Ret_eq;
          [eapply conn_commit_ok; [reflexivity | apply (Hok 2); lia] |].
        eapply bind_Ret_eq; [reflexivity |].
        eapply bind_Raise.
        eapply (insert_loop_fail _ v xs rs);
          [exact Hitems | exact Hdicts | reflexivity | exact Hfuel | exact Hr | |].
        -- intros j Hj. simpl. rewrite <- (Hok (3 + j)) by lia. f_equal. lia.
        -- simpl. rewrite <- Hfail. f_equal. lia.
      * simpl. repeat split; try fields.
        -- pose proof (lookup_lt_Some _ _ _ Hr) as Hlt.
           unfold run_calls, insert_calls.
           rewrite (take_app_le _ [Commit]) by (rewrite length_fmap, length_fmap; lia).
           assert (((λ p, Execute (INSERT_INTO_f1_data p)) <$> (six_fields <$> rs))
                     !! k = Some (Execute (INSERT_INTO_f1_data (six_fields r)))) as Hc.
           { by rewrite !list_lookup_fmap, Hr. }
           rewrite (take_S_r _ _ _ Hc), <- !fmap_take.
           by rewrite <- !app_assoc.
    + (* the final commit fails *)
      apply lookup_ge_None_1 in Hr.
      assert (k = length rs) as -> by lia.
      eexists. split.
      * prelude.
        eapply try_finally_Raise; [| reflexivity].
        eapply try_except_Raise; [| reflexivity].
        eapply with_as_Raise;
          [apply engine_connect_ok, (Hok 0); lia | | reflexivity].
        eapply bind_Ret_eq;
          [eapply conn_execute_ok; [reflexivity | apply (Hok 1); lia] |].
        eapply bind_Ret_eq;
          [eapply conn_commit_ok; [reflexivity | apply (Hok 2); lia] |].
        eapply bind_Ret_eq; [reflexivity |].
        eapply bind_Ret_eq.
        { eapply (insert_loop_ok _ v xs rs);
            [exact Hitems | exact Hdicts | reflexivity | exact Hfuel |].
          intros j Hj. simpl. rewrite <- (Hok (3 + j)) by lia. f_equal. lia. }
        eapply bind_Raise.
        eapply conn_commit_fail; [reflexivity |].
        simpl. rewrite <- Hfail. f_equal. lia.
      * simpl. rewrite firstn_all2 by (by rewrite length_fmap).
        repeat split; try fields.
        -- unfold run_calls.
           rewrite (firstn_all2 (insert_calls _ ++ _)).
           ++ by rewrite <- !app_assoc.
           ++ unfold insert_calls. rewrite length_app, !length_fmap. simpl. lia.
Qed.
End loader.

(** Among the next [n] round trips, either none fails or there is a first
    one that does. *)
Lemma first_fault (f : nat → option exn) (t n : nat) :
  (∀ j, j < n → f (j + t) = None)
  ∨ ∃ p e, p < n ∧ (∀ j, j < p → f (j + t) = None) ∧ f (p + t) = Some e.
Proof.
  induction n as [|n [IH | (p & e & Hp & Hok & Hfail)]].
  - left. intros j Hj. lia.
  - destruct (f (n + t)) as [e|] eqn:Hn.
    + right. exists n, e. split; [lia |]. split; [| done].
      intros j Hj. apply IH. lia.
    + left. intros j Hj. destruct (decide (j = n)) as [-> | Hne]; [done |].
      apply IH. lia.
  - right. exists p, e. split; [lia | done].
Qed.


(** ** load_data_into_database: the properties of the specification *)





(** C5.  However the loader ends, it holds no connection: after the
    configuration error (none was opened), after a failed connection
    attempt (none was obtained), after a failure of any later round trip
    and after a complete run (the [with] block closed it).  With one unit
    of loop budget per row the loader does end. *)
Theorem load_releases_connection w v rs fuel :
  read_rows (heap w) v = Some rs →
  length rs ≤ fuel →
  conn w = None →
  (load_data_into_database fuel v w).1 ≠ OutOfFuel
  ∧ conn (load_data_into_database fuel v w).2 = None.
Proof.
  intros Hrows Hfuel Hconn.
  destruct (environ w !! "DATABASE_URL") as [url|] eqn:Henv.
  - destruct (decide (url = "")) as [-> | Hurl].
    + by rewrite load_config_error by by right.
    + destruct (first_fault (faults w) (round_trips w) (4 + length rs))
        as [Hok | (p & e & Hp & Hok & Hfail)].
      * destruct (load_succeeds w v rs url fuel Henv Hurl Hrows Hfuel Hok)
          as (w' & -> & _ & _ & _ & Hc & _).
        done.
      * destruct (load_fails w v rs url fuel Henv Hurl Hrows Hfuel p e Hp Hok Hfail)
          as (w' & -> & _ & _ & _ & Hc & _).
        split; [done |]. simpl. rewrite Hc. by destruct (decide (p = 0)).
  - by rewrite load_config_error by by left.
Qed.

Lemma load_releases_connection_witness :
  (load_data_into_database 2 (VRef 1%positive) (sample_world_failing 4)).1 ≠ OutOfFuel
  ∧ conn (load_data_into_database 2 (VRef 1%positive) (sample_world_failing 4)).2 = None.
Proof.
  apply (load_releases_connection (sample_world_failing 4) (VRef 1%positive)
           [sample_record; ∅] 2).
  - reflexivity.
  - simpl. lia.
  - reflexivity.
Defined.





(** * Further properties of the tasks *)

(** ** extract_data: the other ways out *)

(** Every way out of [extract_data] leaves the state of the GET, with
    at most more lines printed. *)
Lemma extract_data_state w :
  ∃ r out,
    extract_data w =
      (r, set_stdout out
            (log_call (HttpGet "https://api.openf1.org/v1/pit?session_key=9158") w)).
Proof.
  unfold extract_data.
  change ("https://api.openf1.org/v1/pit?session_key=" +:+ session_key)
    with "https://api.openf1.org/v1/pit?session_key=9158".
  unfold bind at 1. unfold requests_get.
  destruct (network w _) as [e | resp].
  { exists (Raise e), (stdout w). by destruct w. }
  case_bool_decide.
  2: { eexists _, (stdout w). by destruct w. }
  unfold response_json. destruct (json resp) as [e | data].
  { exists (Raise e), (stdout w). by destruct w. }
  unfold bind, ret, len, print, raise, type_name. simpl.
  destruct (items (heap w) data).
  - by eexists _, _.
  - eexists _, (stdout w). by destruct w.
Qed.

(** X1.  Whatever the endpoint does, [extract_data] makes exactly one
    GET, of the fixed URL, and nothing else leaves the process; the
    store, the environment and the database are as before. *)
Theorem extract_data_one_request w :
  trace (extract_data w).2
    = trace w ++ [HttpGet "https://api.openf1.org/v1/pit?session_key=9158"]
  ∧ heap (extract_data w).2 = heap w
  ∧ environ (extract_data w).2 = environ w
  ∧ db (extract_data w).2 = db w
  ∧ conn (extract_data w).2 = conn w
  ∧ round_trips (extract_data w).2 = round_trips w.
Proof. by destruct (extract_data_state w) as (r & out & ->). Qed.

(** X2.  When the GET itself raises (no network, timeout), the exception
    leaves [extract_data] as it is; nothing is printed. *)
Theorem extract_data_network_error w e :
  network w "https://api.openf1.org/v1/pit?session_key=9158" = inl e →
  extract_data w =
    (Raise e, log_call (HttpGet "https://api.openf1.org/v1/pit?session_key=9158") w).
Proof.
  intros Hnet. unfold extract_data.
  change ("https://api.openf1.org/v1/pit?session_key=" +:+ session_key)
    with "https://api.openf1.org/v1/pit?session_key=9158".
  unfold bind at 1. unfold requests_get. by rewrite Hnet.
Qed.

Lemma extract_data_network_error_witness :
  extract_data sample_world =
    (Raise (LibraryError "ConnectionError" "Network is unreachable"),
     log_call (HttpGet "https://api.openf1.org/v1/pit?session_key=9158") sample_world).
Proof.
  apply (extract_data_network_error sample_world). reflexivity.
Defined.

(** X3.  A 200 answer whose body is not JSON: the decoder's exception
    leaves [extract_data] as it is; nothing is printed or returned. *)
Theorem extract_data_decode_error w resp e :
  network w "https://api.openf1.org/v1/pit?session_key=9158" = inr resp →
  status_code resp = 200%Z →
  json resp = inl e →
  extract_data w =
    (Raise e, log_call (HttpGet "https://api.openf1.org/v1/pit?session_key=9158") w).
Proof.
  intros Hnet Hstatus Hjson. unfold extract_data.
  change ("https://api.openf1.org/v1/pit?session_key=" +:+ session_key)
    with "https://api.openf1.org/v1/pit?session_key=9158".
  unfold bind at 1. unfold requests_get. rewrite Hnet.
  case_bool_decide; [| contradiction].
  unfold response_json. by rewrite Hjson.
Qed.

Lemma extract_data_decode_error_witness :
  extract_data (sample_world_body (inl not_json)) =
    (Raise not_json,
     log_call (HttpGet "https://api.openf1.org/v1/pit?session_key=9158")
       (sample_world_body (inl not_json))).
Proof.
  apply (extract_data_decode_error (sample_world_body (inl not_json))
           (Response 200 (inl not_json)) not_json); reflexivity.
Defined.

(** X4.  A 200 answer whose body decodes to [null], a boolean or a
    number: [len(data)] in the progress message raises [TypeError], so
    the task fails although the request succeeded. *)
Theorem extract_data_unsized_body w resp data :
  network w "https://api.openf1.org/v1/pit?session_key=9158" = inr resp →
  status_code resp = 200%Z →
  json resp = inr data →
  items (heap w) data = None →
  ∃ t,
    type_name data w = (Ret t, w)
    ∧ t ∈ ["NoneType"; "bool"; "int"; "float"]
    ∧ extract_data w =
        (Raise (TypeError ("object of type '" +:+ t +:+ "' has no len()")),
         log_call (HttpGet "https://api.openf1.org/v1/pit?session_key=9158") w).
Proof.
  intros Hnet Hstatus Hjson Hitems.
  assert (∃ t, type_name data w = (Ret t, w)
               ∧ t ∈ ["NoneType"; "bool"; "int"; "float"]) as (t & Ht & Hin).
  { destruct data as [| | | | |l]; simpl in Hitems; try done;
      [| | | | destruct (heap w !! l) as [[]|]; done];
      eexists; (split; [reflexivity | set_solver]). }
  exists t. split; [done |]. split; [done |].
  unfold extract_data.
  change ("https://api.openf1.org/v1/pit?session_key=" +:+ session_key)
    with "https://api.openf1.org/v1/pit?session_key=9158".
  unfold bind at 1. unfold requests_get. rewrite Hnet.
  case_bool_decide; [| contradiction].
  unfold response_json. rewrite Hjson.
  unfold bind at 1. unfold ret at 1. unfold bind at 1. unfold len. simpl.
  rewrite Hitems.
  destruct data as [| | | | |l]; simpl in Hitems; try done;
    [| | | | destruct (heap w !! l) as [[]|]; done];
    by injection Ht as <-.
Qed.

Lemma extract_data_unsized_body_witness :
  ∃ t,
    type_name VNone (sample_world_body (inr VNone))
      = (Ret t, sample_world_body (inr VNone))
    ∧ t ∈ ["NoneType"; "bool"; "int"; "float"]
    ∧ extract_data (sample_world_body (inr VNone)) =
        (Raise (TypeError ("object of type '" +:+ t +:+ "' has no len()")),
         log_call (HttpGet "https://api.openf1.org/v1/pit?session_key=9158")
           (sample_world_body (inr VNone))).
Proof.
  apply (extract_data_unsized_body (sample_world_body (inr VNone))
           (Response 200 (inr VNone)) VNone); reflexivity.
Defined.

(** X5.  [extract_data] returns a value exactly when the answer has
    status 200 and a body that decodes to something with a length (a
    list, a dict or a string), and then it returns that body: any other
    status, 201 or 204 included, is a failure. *)
Theorem extract_data_returns_iff w data :
  (extract_data w).1 = Ret data
  ↔ ∃ resp,
      network w "https://api.openf1.org/v1/pit?session_key=9158" = inr resp
      ∧ status_code resp = 200%Z
      ∧ json resp = inr data
      ∧ is_Some (items (heap w) data).
Proof.
  unfold extract_data.
  change ("https://api.openf1.org/v1/pit?session_key=" +:+ session_key)
    with "https://api.openf1.org/v1/pit?session_key=9158".
  unfold bind at 1. unfold requests_get.
  destruct (network w _) as [e | resp].
  { split; [done | by intros (resp & ? & _)]. }
  case_bool_decide as Hstatus.
  2: { split; [done | intros (resp' & [= <-] & ? & _); contradiction]. }
  unfold response_json. destruct (json resp) as [e | data'] eqn:Hjson.
  { split; [done | intros (resp' & [= <-] & _ & ? & _); congruence]. }
  unfold bind, ret, len, print, raise, type_name. simpl.
  destruct (items (heap w) data') as [xs|] eqn:Hitems; simpl.
  - split.
    + intros [= <-]. exists resp. by rewrite Hitems.
    + intros (resp' & [= <-] & _ & Hj & _). congruence.
  - split; [done |].
    intros (resp' & [= <-] & _ & Hj & Hsome).
    assert (data' = data) as -> by congruence.
    rewrite Hitems in Hsome. by destruct Hsome.
Qed.

(** ** transform_data: other inputs *)

(** X6.  Given [None], a boolean or a number instead of a list,
    [transform_data] raises [TypeError] at the [for] statement, whatever
    the loop budget; nothing is printed, and the only change is the empty
    list it had already created. *)
Theorem transform_data_not_iterable w v fuel :
  items (heap w) v = None →
  ∃ t,
    type_name v w = (Ret t, w)
    ∧ t ∈ ["NoneType"; "bool"; "int"; "float"]
    ∧ transform_data fuel v w =
        (Raise (TypeError ("'" +:+ t +:+ "' object is not iterable")),
         set_heap (<[fresh (dom (heap w)) := OList []]> (heap w)) w).
Proof.
  intros Hitems.
  destruct v as [| | | | |l]; simpl in Hitems; try done;
    [| | | | destruct (heap w !! l) as [[]|]; done];
    (eexists; split; [reflexivity |]; split; [set_solver |]);
    by destruct fuel.
Qed.

Lemma transform_data_not_iterable_witness :
  ∃ t,
    type_name VNone sample_world = (Ret t, sample_world)
    ∧ t ∈ ["NoneType"; "bool"; "int"; "float"]
    ∧ transform_data 0 VNone sample_world =
        (Raise (TypeError ("'" +:+ t +:+ "' object is not iterable")),
         set_heap (<[fresh (dom (heap sample_world)) := OList []]> (heap sample_world))
           sample_world).
Proof.
  apply (transform_data_not_iterable sample_world VNone 0). reflexivity.
Defined.

Lemma six_fields_idemp r : six_fields (six_fields r) = six_fields r.
Proof.
  apply map_eq. intros k. destruct (decide (k ∈ six_keys)) as [Hk | Hk].
  - by rewrite !six_fields_lookup by done.
  - by rewrite !six_fields_extra by done.
Qed.

(** X7.  Transforming what [transform_data] returned changes nothing
    more: the rows of the second result have the contents of the rows of
    the first. *)
Theorem transform_data_idempotent w v rs fuel :
  read_rows (heap w) v = Some rs →
  length rs ≤ fuel →
  ∃ out1 w1 out2 w2 rows,
    transform_data fuel v w = (Ret out1, w1)
    ∧ transform_data fuel out1 w1 = (Ret out2, w2)
    ∧ read_rows (heap w1) out1 = Some rows
    ∧ read_rows (heap w2) out1 = Some rows
    ∧ read_rows (heap w2) out2 = Some rows.
Proof.
  intros Hrows Hfuel.
  destruct (transform_data_run w v rs fuel Hrows Hfuel)
    as (t1 & h1 & Hrun1 & _ & _ & Hread1).
  set (w1 := set_stdout
               (stdout w ++ ["✅ Transformed " +:+ pretty (length rs) +:+ " records"])
               (set_heap h1 w)) in *.
  destruct (transform_data_run w1 (VRef t1) (six_fields <$> rs) fuel)
    as (t2 & h2 & Hrun2 & _ & Hsub2 & Hread2); [done | by rewrite length_fmap |].
  eexists _, _, _, _, _.
  split; [exact Hrun1 |]. split; [exact Hrun2 |]. split; [exact Hread1 |].
  split; [by apply (read_rows_mono h1 h2) |].
  etrans; [exact Hread2 |]. f_equal.
  rewrite <- list_fmap_compose.
  apply list_fmap_ext. intros i r _. apply six_fields_idemp.
Qed.

Lemma transform_data_idempotent_witness :
  ∃ out1 w1 out2 w2 rows,
    transform_data 2 (VRef 1%positive) sample_world = (Ret out1, w1)
    ∧ transform_data 2 out1 w1 = (Ret out2, w2)
    ∧ read_rows (heap w1) out1 = Some rows
    ∧ read_rows (heap w2) out1 = Some rows
    ∧ read_rows (heap w2) out2 = Some rows.
Proof.
  apply (transform_data_idempotent sample_world (VRef 1%positive)
           [sample_record; ∅] 2).
  - reflexivity.
  - simpl. lia.
Defined.

(** The two cases of a round of the loop. *)
Lemma for_from_end {St} fuel v i (body : val → St → M St) s w xs :
  items (heap w) v = Some xs → xs !! i = None →
  for_from fuel v i body s w = (Ret s, w).
Proof.
  intros Hitems Hi.
  destruct fuel; simpl; unfold bind, iterable; by rewrite Hitems, Hi.
Qed.

Lemma for_from_round {St} fuel v i (body : val → St → M St) s w xs x :
  items (heap w) v = Some xs → xs !! i = Some x →
  for_from (S fuel) v i body s w
  = bind (body x s) (λ s', for_from fuel v (S i) body s') w.
Proof.
  intros Hitems Hi. simpl. unfold bind at 1. unfold iterable.
  by rewrite Hitems, Hi.
Qed.



(** [.get] on what is not a dict: the exception names the type of the
    value, and that type is the same in any later store. *)
Lemma dict_get_not_dict w w' x key t :
  read_dict (heap w) x = None →
  (∀ a, x = VRef a → is_Some (heap w !! a)) →
  type_name x w = (Ret t, w) →
  heap w ⊆ heap w' →
  dict_get x key w' =
    (Raise (AttributeError ("'" +:+ t +:+ "' object has no attribute 'get'")), w').
Proof.
  intros Hread Hheld Htype Hsub.
  destruct x as [| | | | |a];
    try (inversion Htype; reflexivity).
  destruct (Hheld a eq_refl) as [o Ho]. simpl in Hread. rewrite Ho in *.
  destruct o as [ys | d]; [| done].
  unfold type_name in Htype. rewrite Ho in Htype. inversion Htype as [Ht].
  unfold dict_get, no_attribute, bind, type_name, raise.
  rewrite (lookup_weaken _ _ _ _ Ho Hsub). reflexivity.
Qed.

(** X9.  When slot [k] of the list is the first that does not hold a
    dict ([None], a number, a string, a nested list), [transform_data]
    raises [AttributeError] naming the type of what the slot holds; the
    rows built so far are not returned, nothing is printed, and every
    object that existed is unchanged. *)
Theorem transform_data_bad_record w l xs k rs x t fuel :
  heap w !! l = Some (OList xs) →
  mapM (read_dict (heap w)) (take k xs) = Some rs →
  xs !! k = Some x →
  read_dict (heap w) x = None →
  (∀ a, x = VRef a → is_Some (heap w !! a)) →
  type_name x w = (Ret t, w) →
  length xs ≤ fuel →
  ∃ h',
    transform_data fuel (VRef l) w =
      (Raise (AttributeError ("'" +:+ t +:+ "' object has no attribute 'get'")),
       set_heap h' w)
    ∧ heap w ⊆ h'.
Proof.
  intros Hl Hrs Hk Hread Hheld Htype Hfuel.
  pose proof (lookup_lt_Some _ _ _ Hk) as Hlt.
  set (tl := fresh (dom (heap w))).
  assert (heap w !! tl = None) as Htl by apply not_elem_of_dom, is_fresh.
  set (w0 := set_heap (<[tl := OList []]> (heap w)) w).
  set (err := AttributeError ("'" +:+ t +:+ "' object has no attribute 'get'")).
  destruct (transform_data fuel (VRef l) w) as [res wf] eqn:Hrun0.
  unfold transform_data in Hrun0. unfold bind at 1 in Hrun0.
  unfold alloc at 1 in Hrun0. fold tl in Hrun0. fold w0 in Hrun0.
  unfold for_in in Hrun0.
  match type of Hrun0 with context [for_from _ _ _ ?b _] => set (body := b) in * end.
  set (I := λ (i : nat) (_ : unit) (w' : world),
    i ≤ k ∧ w' = set_heap (heap w') w ∧ heap w ⊆ heap w' ∧
    ∃ outs, heap w' !! tl = Some (OList outs)).
  set (Q := λ (e : exn) (w' : world),
    e = err ∧ w' = set_heap (heap w') w ∧ heap w ⊆ heap w').
  assert (∀ i y s w', I i s w' → xs !! i = Some y →
            match body y s w' with
            | (Ret s', w'') => I (S i) s' w''
            | (Raise e, w'') => Q e w''
            | (OutOfFuel, _) => False
            end) as Hbody.
  { intros i y [] w' (Hik & Hw' & Hsub & outs & Hout) Hy.
    destruct (decide (i = k)) as [-> | Hne].
    - assert (y = x) as -> by congruence.
      unfold body. erewrite bind_Raise; [| by eapply dict_get_not_dict].
      done.
    - assert (take k xs !! i = Some y) as Hy' by (rewrite lookup_take_lt; [done | lia]).
      apply mapM_Some in Hrs.
      destruct (Forall2_lookup_l _ _ _ _ _ Hrs Hy') as (r & _ & Hrd).
      apply (read_dict_mono _ _ _ _ Hsub) in Hrd.
      unfold body.
      repeat (erewrite bind_Ret; [| by apply dict_get_read]).
      unfold bind, alloc, list_append. simpl.
      set (a := fresh (dom (heap w'))).
      assert (heap w' !! a = None) as Ha by apply not_elem_of_dom, is_fresh.
      assert (a ≠ tl) as Hat by (intros ->; congruence).
      rewrite lookup_insert_ne by done. rewrite Hout.
      unfold I. simpl. split; [lia |]. split; [by rewrite Hw' |]. split.
      + apply insert_subseteq_r; [done |].
        apply insert_subseteq_r; [by eapply lookup_weaken_None | done].
      + eexists. by rewrite lookup_insert_eq. }
  pose proof (for_from_rule I Q (VRef l) xs body
    ltac:(intros i s w' (_ & _ & Hs & _); apply items_list; by eapply lookup_weaken)
    Hbody fuel 0 tt w0) as Hrule.
  destruct (for_from fuel (VRef l) 0 body tt w0) as [[[]| e |] w'] eqn:Hrun.
  - destruct Hrule as (Hle & _); [| lia | lia | lia].
    unfold I. split; [lia |]. split; [done |]. split; [by apply insert_subseteq |].
    eexists. simpl. by rewrite lookup_insert_eq.
  - destruct Hrule as (-> & Hw' & Hsub); [| lia | lia |].
    { unfold I. split; [lia |]. split; [done |]. split; [by apply insert_subseteq |].
      eexists. simpl. by rewrite lookup_insert_eq. }
    exists (heap w'). split; [| done].
    unfold bind in Hrun0. rewrite Hrun in Hrun0. rewrite <- Hw'. by symmetry.
  - exfalso. apply Hrule; [| lia | lia].
    unfold I. split; [lia |]. split; [done |]. split; [by apply insert_subseteq |].
    eexists. simpl. by rewrite lookup_insert_eq.
Qed.

Lemma transform_data_bad_record_witness :
  ∃ h',
    transform_data 3 (VRef 7%positive) sample_world_bad =
      (Raise (AttributeError ("'" +:+ "NoneType" +:+ "' object has no attribute 'get'")),
       set_heap h' sample_world_bad)
    ∧ heap sample_world_bad ⊆ h'.
Proof.
  apply (transform_data_bad_record sample_world_bad 7%positive
           [VRef 2%positive; VNone; VRef 3%positive] 1 [sample_record] VNone
           "NoneType" 3).
  - reflexivity.
  - reflexivity.
  - reflexivity.
  - reflexivity.
  - intros a Ha. discriminate Ha.
  - reflexivity.
  - simpl. lia.
Defined.

(** ** load_data_into_database: any input *)

Lemma same_process_refl w : same_process w w.
Proof. by repeat split. Qed.

Lemma same_process_trans w1 w2 w3 :
  same_process w1 w2 → same_process w2 w3 → same_process w1 w3.
Proof.
  intros (? & ? & ? & ?) (? & ? & ? & ?). repeat split; congruence.
Qed.

Lemma ends_bind {A B} (m : M A) (k : A → M B) w :
  ends m w →
  (∀ a w', same_process w w' → ends (k a) w') →
  ends (bind m k) w.
Proof.
  intros [Hfuel Hsame] Hk. unfold ends, bind in *.
  destruct (m w) as [[a | e |] w'] eqn:Hm; simpl in *; [| done | done].
  destruct (Hk a w' Hsame) as [Hfuel' Hsame'].
  split; [done |]. by eapply same_process_trans.
Qed.

Lemma ends_try_except {A} (body : M A) handler w :
  ends body w →
  (∀ e w', ends (handler e) w') →
  ends (try_except body handler) w.
Proof.
  intros [Hfuel Hsame] Hh. unfold ends, try_except in *.
  destruct (body w) as [[a | e |] w'] eqn:Hb; simpl in *; [done | | done].
  destruct (Hh e w') as [Hfuel' Hsame'].
  split; [done |]. by eapply same_process_trans.
Qed.

Lemma ends_try_finally {A} (body : M A) fin w :
  ends body w →
  (∀ w', ends fin w') →
  ends (try_finally body fin) w.
Proof.
  intros [Hfuel Hsame] Hf. unfold ends, try_finally in *.
  destruct (body w) as [[a | e |] w'] eqn:Hb; simpl in *; [| | done];
    destruct (Hf w') as [Hfuel' Hsame'];
    destruct (fin w') as [[[] | e' |] w'']; simpl in *; try done;
    (split; [done |]; by eapply same_process_trans).
Qed.

Lemma ends_with_as {R A} (enter : M R) exit_ (body : R → M A) w :
  ends enter w →
  (∀ x w', same_process w w' → ends (body x) w') →
  (∀ x w', ends (exit_ x) w') →
  ends (with_as enter exit_ body) w.
Proof.
  intros He Hb Hx. unfold with_as. apply ends_bind; [done |].
  intros x w' Hsame. apply ends_try_finally; [by apply Hb |].
  intros w''. apply Hx.
Qed.

(** A loop over an iterable ends when each round does and the budget
    covers the slots that remain: the rounds leave the store alone, so
    the iterable stays as it was. *)
Lemma ends_for_from {St} (body : val → St → M St) v xs fuel :
  (∀ x s w, ends (body x s) w) →
  ∀ i s w,
    items (heap w) v = Some xs →
    length xs ≤ i + fuel →
    ends (for_from fuel v i body s) w.
Proof.
  intros Hbody. induction fuel as [|fuel IH]; intros i s w Hitems Hlen.
  - assert (xs !! i = None) as Hi by (apply lookup_ge_None_2; lia).
    unfold ends. rewrite (for_from_end 0 v i body s w xs) by done.
    split; [done | apply same_process_refl].
  - destruct (xs !! i) as [x|] eqn:Hi.
    + unfold ends. rewrite (for_from_round fuel v i body s w xs x) by done.
      apply ends_bind; [apply Hbody |].
      intros s' w' (_ & _ & Hheap & _). apply IH; [| lia]. by rewrite Hheap.
    + unfold ends. rewrite (for_from_end (S fuel) v i body s w xs) by done.
      split; [done | apply same_process_refl].
Qed.

(** A loop over what is not iterable raises at once. *)
Lemma for_from_not_iterable {St} (body : val → St → M St) v fuel i s w :
  items (heap w) v = None →
  ∃ t,
    type_name v w = (Ret t, w)
    ∧ for_from fuel v i body s w =
        (Raise (TypeError ("'" +:+ t +:+ "' object is not iterable")), w).
Proof.
  intros Hitems.
  destruct v as [| | | | |l]; simpl in Hitems; try done;
    [| | | | destruct (heap w !! l) as [[]|]; done];
    (eexists; split; [reflexivity |]); by destruct fuel.
Qed.

Lemma ends_dict_get d key w : ends (dict_get d key) w.
Proof.
  unfold ends, dict_get, no_attribute, bind, type_name, raise.
  destruct d as [| | | | |l]; try (split; [done | apply same_process_refl]).
  destruct (heap w !! l) as [[]|]; (split; [done | apply same_process_refl]).
Qed.

Lemma ends_print line w : ends (print line) w.
Proof. by repeat split. Qed.

Lemma ends_round_trip w : ends round_trip w.
Proof. unfold ends, round_trip. by destruct (faults w (round_trips w)). Qed.

Lemma ends_engine_connect e w : ends (engine_connect e) w.
Proof.
  unfold ends, engine_connect, round_trip. simpl.
  by destruct (faults w (round_trips w)).
Qed.

Lemma ends_conn_execute h s w : ends (conn_execute h s) w.
Proof.
  unfold ends, conn_execute, round_trip. destruct (conn w); [| by repeat split].
  simpl. by destruct (faults w (round_trips w)).
Qed.

Lemma ends_conn_commit h w : ends (conn_commit h) w.
Proof.
  unfold ends, conn_commit, round_trip. destruct (conn w); [| by repeat split].
  simpl. by destruct (faults w (round_trips w)).
Qed.

Lemma ends_conn_close h w : ends (conn_close h) w.
Proof. by repeat split. Qed.

Lemma ends_engine_dispose e w : ends (engine_dispose e) w.
Proof. by repeat split. Qed.

Lemma ends_ret {A} (a : A) w : ends (ret a) w.
Proof. by repeat split. Qed.

Lemma ends_raise {A} e w : ends (@raise A e) w.
Proof. by repeat split. Qed.

Lemma ends_for_in {St} (body : val → St → M St) v fuel s w :
  (∀ x s w, ends (body x s) w) →
  length (default [] (items (heap w) v)) ≤ fuel →
  ends (for_in fuel v body s) w.
Proof.
  intros Hbody Hfuel. unfold for_in.
  destruct (items (heap w) v) as [xs|] eqn:Hitems.
  - by apply (ends_for_from body v xs).
  - destruct (for_from_not_iterable body v fuel 0 s w Hitems) as (t & _ & Hrun).
    unfold ends. rewrite Hrun. split; [done | apply same_process_refl].
Qed.

(** With one unit of loop budget per slot of its argument, whatever that
    argument is, the loader ends, in a state of the same process. *)
Lemma load_ends fuel v w :
  length (default [] (items (heap w) v)) ≤ fuel →
  ends (load_data_into_database fuel v) w.
Proof.
  intros Hfuel. unfold load_data_into_database.
  apply ends_bind; [by repeat split |]. intros url w1 Hw1.
  apply ends_bind; [by repeat split |]. intros unset w2 Hw2.
  destruct unset; [apply ends_raise |].
  apply ends_bind.
  { unfold create_engine. destruct url; try apply ends_ret;
      (apply ends_bind; [by repeat split | intros; apply ends_raise]). }
  intros e w3 Hw3.
  apply ends_try_finally; [| apply ends_engine_dispose].
  apply ends_try_except.
  2: { intros ex w'. apply ends_bind; [apply ends_print | intros; apply ends_raise]. }
  apply ends_with_as; [apply ends_engine_connect | | apply ends_conn_close].
  intros c w4 Hw4.
  apply ends_bind; [apply ends_conn_execute |]. intros _ w5 Hw5.
  apply ends_bind; [apply ends_conn_commit |]. intros _ w6 Hw6.
  apply ends_bind; [apply ends_print |]. intros _ w7 Hw7.
  apply ends_bind.
  - apply ends_for_in.
    + intros x s w'.
      repeat (apply ends_bind; [apply ends_dict_get | intros ? ? _]).
      apply ends_bind; [apply ends_conn_execute | intros; apply ends_ret].
    + assert (same_process w w7) as (_ & _ & -> & _); [| done].
      repeat (eapply same_process_trans; [eassumption |]).
      apply same_process_refl.
  - intros n w8 _.
    apply ends_bind; [apply ends_conn_commit | intros; apply ends_print].
Qed.

(** The [with] block of the loader gives the connection back on every
    way out, and holds none when the connection attempt fails. *)
Lemma with_connect_closes {A} e (body : handle → M A) w :
  conn w = None →
  (with_as (engine_connect e) conn_close body w).1 ≠ OutOfFuel →
  conn (with_as (engine_connect e) conn_close body w).2 = None.
Proof.
  intros Hconn. unfold with_as, bind, engine_connect, round_trip. simpl.
  destruct (faults w (round_trips w)); simpl; [done |].
  unfold try_finally.
  by destruct (body Conn _) as [[a | ex |] w2].
Qed.

Lemma load_closes fuel v w :
  conn w = None →
  (load_data_into_database fuel v w).1 ≠ OutOfFuel →
  conn (load_data_into_database fuel v w).2 = None.
Proof.
  intros Hconn.
  destruct (environ w !! "DATABASE_URL") as [url|] eqn:Henv;
    [| by rewrite load_config_error by by left].
  destruct (decide (url = "")) as [-> | Hurl];
    [by rewrite load_config_error by by right |].
  destruct (load_data_into_database fuel v w) as [r w'] eqn:Hrun. simpl.
  unfold load_data_into_database in Hrun.
  unfold bind at 1 in Hrun. unfold os_environ_get at 1 in Hrun. rewrite Henv in Hrun.
  unfold bind at 1 in Hrun. unfold py_not at 1 in Hrun. cbv beta iota in Hrun.
  case_bool_decide; [contradiction |].
  unfold bind at 1 in Hrun. unfold create_engine at 1, ret at 1 in Hrun.
  unfold try_finally at 1 in Hrun. unfold try_except in Hrun.
  match type of Hrun with context [with_as (engine_connect ?e) _ ?b w] =>
    pose proof (with_connect_closes e b w Hconn) as Hclose;
    destruct (with_as (engine_connect e) conn_close b w) as [[[] | ex |] w2]
  end; simpl in *; injection Hrun as <- <-; try done; intros _; by apply Hclose.
Qed.

(** X10.  For any argument at all (a list with bad slots, a dict, a
    string, [None]), any environment and any behaviour of the server:
    with one unit of loop budget per slot of the argument the loader
    ends; it holds no connection afterwards; and it has changed neither
    the store, so not its argument either, nor the environment. *)
Theorem load_any_input w v fuel :
  conn w = None →
  length (default [] (items (heap w) v)) ≤ fuel →
  (load_data_into_database fuel v w).1 ≠ OutOfFuel
  ∧ conn (load_data_into_database fuel v w).2 = None
  ∧ heap (load_data_into_database fuel v w).2 = heap w
  ∧ environ (load_data_into_database fuel v w).2 = environ w.
Proof.
  intros Hconn Hfuel.
  destruct (load_ends fuel v w Hfuel) as (Hends & Henv & _ & Hheap & _).
  split; [done |]. split; [by apply load_closes | done].
Qed.

Lemma load_any_input_witness :
  (load_data_into_database 3 (VRef 7%positive) sample_world_bad).1 ≠ OutOfFuel
  ∧ conn (load_data_into_database 3 (VRef 7%positive) sample_world_bad).2 = None
  ∧ heap (load_data_into_database 3 (VRef 7%positive) sample_world_bad).2
    = heap sample_world_bad
  ∧ environ (load_data_into_database 3 (VRef 7%positive) sample_world_bad).2
    = environ sample_world_bad.
Proof.
  apply (load_any_input sample_world_bad (VRef 7%positive) 3).
  - reflexivity.
  - vm_compute. lia.
Defined.

(** ** load_data_into_database: what a run does to the table *)









(** ** load_data_into_database: arguments that are not lists of dicts *)





(** ** The pipeline *)

Lemma extract_data_returns w resp data rs :
  network w "https://api.openf1.org/v1/pit?session_key=9158" = inr resp →
  status_code resp = 200%Z →
  json resp = inr data →
  read_rows (heap w) data = Some rs →
  extract_data w =
    (Ret data,
     set_stdout (stdout w ++ ["Extracted " +:+ pretty (length rs)
                              +:+ " records from F1 API"])
       (log_call (HttpGet "https://api.openf1.org/v1/pit?session_key=9158") w)).
Proof.
  intros Hnet Hstatus Hjson Hrows. unfold extract_data.
  change ("https://api.openf1.org/v1/pit?session_key=" +:+ session_key)
    with "https://api.openf1.org/v1/pit?session_key=9158".
  unfold bind at 1. unfold requests_get. rewrite Hnet.
  case_bool_decide; [| contradiction].
  unfold response_json. rewrite Hjson.
  destruct (read_rows_items _ _ _ Hrows) as (xs & Hitems & Hxs).
  unfold bind, ret, len, print. simpl. rewrite Hitems.
  apply mapM_Some, Forall2_length in Hxs. by rewrite Hxs.
Qed.

(** X16.  When the endpoint answers with a status other than 200, the
    run ends at the first task: nothing is transformed, the loader is
    not started, and apart from the GET nothing has happened (no line
    printed, no database call). *)
Theorem pipeline_fetch_failure w resp fuel :
  network w "https://api.openf1.org/v1/pit?session_key=9158" = inr resp →
  status_code resp ≠ 200%Z →
  pipeline fuel w =
    (Raise (Exception ("Failed to fetch F1 data: " +:+ pretty (status_code resp))),
     log_call (HttpGet "https://api.openf1.org/v1/pit?session_key=9158") w).
Proof.
  intros Hnet Hstatus. unfold pipeline. apply bind_Raise.
  unfold extract_data.
  change ("https://api.openf1.org/v1/pit?session_key=" +:+ session_key)
    with "https://api.openf1.org/v1/pit?session_key=9158".
  unfold bind at 1. unfold requests_get. rewrite Hnet.
  by case_bool_decide.
Qed.

Lemma pipeline_fetch_failure_witness :
  pipeline 2 (sample_world_pipeline 503) =
    (Raise (Exception ("Failed to fetch F1 data: " +:+ pretty 503%Z)),
     log_call (HttpGet "https://api.openf1.org/v1/pit?session_key=9158")
       (sample_world_pipeline 503)).
Proof.
  apply (pipeline_fetch_failure (sample_world_pipeline 503)
           (Response 503 (inr (VRef 1%positive))) 2).
  - reflexivity.
  - simpl. lia.
Defined.



(** X18.  The connection URL is looked up only by the last task: without
    it, a run still fetches and transforms the records (the GET is made,
    both progress lines are printed) before it fails with the
    configuration error; the database is never called. *)
Theorem pipeline_config_checked_last w resp data rs fuel :
  network w "https://api.openf1.org/v1/pit?session_key=9158" = inr resp →
  status_code resp = 200%Z →
  json resp = inr data →
  read_rows (heap w) data = Some rs →
  environ w !! "DATABASE_URL" = None →
  length rs ≤ fuel →
  ∃ w',
    pipeline fuel w =
      (Raise (RuntimeError
         "DATABASE_URL not set in environment. Add it to a .env file or export it."),
       w')
    ∧ trace w' = trace w ++ [HttpGet "https://api.openf1.org/v1/pit?session_key=9158"]
    ∧ stdout w' = stdout w
        ++ ["Extracted " +:+ pretty (length rs) +:+ " records from F1 API";
            "✅ Transformed " +:+ pretty (length rs) +:+ " records"]
    ∧ db w' = db w
    ∧ round_trips w' = round_trips w.
Proof.
  intros Hnet Hstatus Hjson Hrows Henv Hfuel.
  pose proof (extract_data_returns w resp data rs Hnet Hstatus Hjson Hrows) as Hext.
  set (w1 := set_stdout _ _) in Hext.
  destruct (transform_data_run w1 data rs fuel Hrows Hfuel)
    as (t & h' & Htr & _ & _ & Hread).
  set (w2 := set_stdout _ _) in Htr.
  exists w2. split.
  { unfold pipeline. eapply bind_Ret_eq; [exact Hext |].
    eapply bind_Ret_eq; [exact Htr |].
    apply load_config_error. by left. }
  simpl. repeat split. by rewrite <- !app_assoc.
Qed.

Lemma pipeline_config_checked_last_witness :
  ∃ w',
    pipeline 2 sample_world_pipeline_unset =
      (Raise (RuntimeError
         "DATABASE_URL not set in environment. Add it to a .env file or export it."),
       w')
    ∧ trace w' = [] ++ [HttpGet "https://api.openf1.org/v1/pit?session_key=9158"]
    ∧ stdout w' = []
        ++ ["Extracted " +:+ pretty (length [sample_record; ∅]) +:+ " records from F1 API";
            "✅ Transformed " +:+ pretty (length [sample_record; ∅]) +:+ " records"]
    ∧ db w' = Database false []
    ∧ round_trips w' = 0.
Proof.
  apply (pipeline_config_checked_last sample_world_pipeline_unset
           (Response 200 (inr (VRef 1%positive))) (VRef 1%positive)
           [sample_record; ∅] 2).
  - reflexivity.
  - reflexivity.
  - reflexivity.
  - reflexivity.
  - reflexivity.
  - simpl. lia.
Defined.
